(** * MemberLoginRegistrationSystem: the Flask handlers of [app.py] over a
      model of the [members] table

    The development follows [src/app.py].  Python [str] values are lists of
    Unicode code points, the SQLite table is the list of its rows in rowid
    order together with the AUTOINCREMENT counter, a connection carries the
    committed database and its own uncommitted view, and every handler is a
    function from the request and the database to the response and the
    database it leaves behind. *)

From Stdlib Require Import ZArith NArith List String Ascii Bool Lia.
Import ListNotations.
Local Open Scope string_scope.
Local Open Scope list_scope.

Set Implicit Arguments.

(** ** Python strings *)

Module Str.

(** A [str] is a sequence of code points. *)
Definition str := list N.

Definition str_eq_dec : forall a b : str, {a = b} + {a <> b} :=
  list_eq_dec N.eq_dec.

(** An ASCII literal of the source as a [str]. *)
Definition lit (s : string) : str :=
  map N_of_ascii (list_ascii_of_string s).

(** [str.isspace] on one code point: the characters [str.strip()] removes
    when called without argument. *)
Definition isspace (c : N) : bool :=
  ((9 <=? c) && (c <=? 13) || (28 <=? c) && (c <=? 32)
   || (c =? 133) || (c =? 160) || (c =? 5760)
   || (8192 <=? c) && (c <=? 8202)
   || (c =? 8232) || (c =? 8233) || (c =? 8239) || (c =? 8287)
   || (c =? 12288))%N.

Fixpoint lstrip (s : str) : str :=
  match s with
  | [] => []
  | c :: s' => if isspace c then lstrip s' else s
  end.

Definition rstrip (s : str) : str := rev (lstrip (rev s)).

(** [s.strip()] *)
Definition strip (s : str) : str := rstrip (lstrip s).

(** Truth value of a [str]: [not s] holds exactly for [''] *)
Definition truthy (s : str) : bool :=
  match s with [] => false | _ :: _ => true end.

End Str.
Import Str.

(** ** The request: method, form fields and query arguments *)

Inductive http_method := GET | HEAD | POST.

(** A werkzeug [MultiDict]: the fields in the order they were sent; a key may
    occur more than once. *)
Definition multidict := list (string * str).

(** [d.get(key, default)]: the first value sent under [key]. *)
Fixpoint get (d : multidict) (key : string) (default : str) : str :=
  match d with
  | [] => default
  | (k, v) :: d' => if String.eqb k key then v else get d' key default
  end.

Record request := {
  method : http_method;
  form : multidict;
  args : multidict
}.

Definition is_post (r : request) : bool :=
  match method r with POST => true | _ => false end.

(** ** The database *)

Module Db.

Local Open Scope Z_scope.

(** A value as [sqlite3.Row] hands it to Python. *)
Inductive value :=
| VNone
| VInt (n : Z)
| VStr (s : str).

(** A row of [members].  [iid] is the INTEGER PRIMARY KEY, the three
    NOT NULL columns hold text, [phone] and [birthdate] may be NULL. *)
Record member := {
  iid : Z;
  username : str;
  email : str;
  password : str;
  phone : option str;
  birthdate : option str
}.

Definition nullable (o : option str) : value :=
  match o with None => VNone | Some s => VStr s end.

(** The six columns of a row, in the order of the CREATE TABLE. *)
Definition columns (m : member) : list value :=
  [VInt (iid m); VStr (username m); VStr (email m); VStr (password m);
   nullable (phone m); nullable (birthdate m)].

(** The table: its rows by ascending rowid, and the largest rowid ever
    handed out (the [sqlite_sequence] entry AUTOINCREMENT keeps). *)
Record store := {
  rows : list member;
  seq : Z
}.

Definition empty : store := {| rows := []; seq := 0 |}.

Definition max_iid (l : list member) : Z :=
  fold_right Z.max 0 (map iid l).

(** The rowid AUTOINCREMENT gives the next row: one more than every rowid
    of the table and than the counter.  Rowids are taken unbounded: the
    table never holds the largest 64-bit rowid. *)
Definition next_iid (s : store) : Z :=
  Z.max (seq s) (max_iid (rows s)) + 1.

(** A connection: the committed database and the connection's own view
    of it, which holds the statements not yet committed. *)
Record connection := {
  disk : store;
  view : store
}.

Definition commit (c : connection) : connection :=
  {| disk := view c; view := view c |}.

(** Closing drops what was not committed; the database is what remains. *)
Definition close (c : connection) : store := disk c.

(** The exceptions [conn.execute] raises here: a violated constraint, and a
    Python [int] parameter that does not fit SQLite's 64-bit INTEGER. *)
Inductive exn := IntegrityError | OverflowError.

(** The [int] can be bound as a parameter: it is a signed 64-bit integer. *)
Definition int64 (i : Z) : bool :=
  (-9223372036854775808 <=? i) && (i <? 9223372036854775808).

Definition has_username (u : str) (m : member) : bool :=
  if str_eq_dec (username m) u then true else false.

Definition has_email (e : str) (m : member) : bool :=
  if str_eq_dec (email m) e then true else false.

Definition has_password (p : str) (m : member) : bool :=
  if str_eq_dec (password m) p then true else false.

Definition has_iid (i : Z) (m : member) : bool := iid m =? i.

(** [SELECT iid FROM members WHERE username = ?] and [fetchone()] *)
Definition select_iid_by_username (u : str) (c : connection) : option Z :=
  option_map iid (find (has_username u) (rows (view c))).

(** [SELECT * FROM members WHERE email = ? AND password = ?] and
    [fetchone()] *)
Definition select_by_credentials (e p : str) (c : connection)
  : option member :=
  find (fun m => has_email e m && has_password p m) (rows (view c)).

(** [SELECT * FROM members WHERE iid = ?] and [fetchone()] *)
Definition select_by_iid (i : Z) (c : connection)
  : exn + option member :=
  if int64 i then inr (find (has_iid i) (rows (view c)))
  else inl OverflowError.

(** [SELECT 1 FROM members WHERE email = ? AND iid != ?] and
    [fetchone()] *)
Definition select_email_of_other (e : str) (i : Z) (c : connection)
  : exn + option Z :=
  if int64 i
  then inr (option_map (fun _ => 1)
              (find (fun m => has_email e m && negb (has_iid i m))
                 (rows (view c))))
  else inl OverflowError.

(** [INSERT INTO members (username, email, password, phone, birthdate)
    VALUES (?, ?, ?, ?, ?)].  The two UNIQUE columns are checked against
    every row; a violation raises and leaves the table as it was. *)
Definition insert (u e p ph b : str) (c : connection)
  : exn + connection :=
  let s := view c in
  if existsb (has_username u) (rows s) || existsb (has_email e) (rows s)
  then inl IntegrityError
  else
    let i := next_iid s in
    let m := {| iid := i; username := u; email := e; password := p;
                phone := Some ph; birthdate := Some b |} in
    inr {| disk := disk c;
           view := {| rows := rows s ++ [m]; seq := i |} |}.

(** What the UPDATE assigns to one row. *)
Definition set_profile (e p ph b : str) (m : member) : member :=
  {| iid := iid m; username := username m; email := e; password := p;
     phone := Some ph; birthdate := Some b |}.

(** The UPDATE on one row: assigned where [iid = ?], kept elsewhere. *)
Definition set_where (i : Z) (e p ph b : str) (m : member) : member :=
  if has_iid i m then set_profile e p ph b m else m.

(** [UPDATE members SET email = ?, password = ?, phone = ?, birthdate = ?
    WHERE iid = ?].  UNIQUE on [email] is checked for the row that
    changes against the rows that do not. *)
Definition update (e p ph b : str) (i : Z) (c : connection)
  : exn + connection :=
  let s := view c in
  if negb (int64 i) then inl OverflowError
  else if existsb (has_iid i) (rows s)
          && existsb (fun m => has_email e m && negb (has_iid i m)) (rows s)
  then inl IntegrityError
  else
    inr {| disk := disk c;
           view := {| rows := map (set_where i e p ph b) (rows s);
                      seq := seq s |} |}.

(** [DELETE FROM members WHERE iid = ?]; the counter is kept. *)
Definition delete (i : Z) (c : connection) : exn + connection :=
  let s := view c in
  if int64 i
  then inr {| disk := disk c;
              view := {| rows := filter (fun m => negb (has_iid i m)) (rows s);
                         seq := seq s |} |}
  else inl OverflowError.

End Db.
Import Db.

(** ** Responses *)

(** The messages of the source, code point by code point. *)

(** '請輸入用戶名、電子郵件和密碼': enter username, email, and password *)
Definition msg_enter_all : str :=
  [35531; 36664; 20837; 29992; 25142; 21517; 12289; 38651; 23376; 37109;
   20214; 21644; 23494; 30908]%N.

(** '用戶名已存在': username already exists *)
Definition msg_username_exists : str :=
  [29992; 25142; 21517; 24050; 23384; 22312]%N.

(** '電子郵件已被使用': email already in use *)
Definition msg_email_in_use : str :=
  [38651; 23376; 37109; 20214; 24050; 34987; 20351; 29992]%N.

(** '請輸入電子郵件和密碼': enter email and password *)
Definition msg_enter_credentials : str :=
  [35531; 36664; 20837; 38651; 23376; 37109; 20214; 21644; 23494; 30908]%N.

(** '電子郵件或密碼錯誤': incorrect email or password *)
Definition msg_bad_credentials : str :=
  [38651; 23376; 37109; 20214; 25110; 23494; 30908; 37679; 35492]%N.

(** '發生未知錯誤': unknown error occurred *)
Definition msg_unknown : str :=
  [30332; 29983; 26410; 30693; 37679; 35492]%N.

(** '用戶不存在': user does not exist *)
Definition msg_no_user : str :=
  [29992; 25142; 19981; 23384; 22312]%N.

(** The targets [url_for] is called with. *)
Inductive url :=
| url_index
| url_login
| url_error (message : str)
| url_welcome (iid : Z).

(** A template with the variables it is rendered with. *)
Inductive page :=
| index_html
| register_html
| login_html
| error_html (error_message : str)
| welcome_html (username : str) (iid : Z)
| edit_profile_html (user : member).

Inductive response :=
| redirect (target : url)
| render_template (p : page)
| uncaught (e : exn).

(** ** The handlers *)

Definition get_db_connection (db : store) : connection :=
  {| disk := db; view := db |}.

(** [CREATE TABLE IF NOT EXISTS]: a database without the table gets the
    empty one. *)
Definition init_db (file : option store) : store :=
  match file with
  | Some db => db
  | None => Db.empty
  end.

(** The star U+2605 on both sides of the name. *)
Definition add_stars (username : str) : str :=
  ([9733%N] ++ username ++ [9733%N])%list.

Definition index : response := render_template index_html.

Definition register (req : request) (db : store) : response * store :=
  if is_post req then
    let username := strip (get (form req) "username" []) in
    let email := strip (get (form req) "email" []) in
    let password := strip (get (form req) "password" []) in
    let phone := strip (get (form req) "phone" []) in
    let birthdate := strip (get (form req) "birthdate" []) in
    if negb (truthy username) || negb (truthy email)
       || negb (truthy password)
    then (redirect (url_error msg_enter_all), db)
    else
      let conn := get_db_connection db in
      match select_iid_by_username username conn with
      | Some _ => (redirect (url_error msg_username_exists), close conn)
      | None =>
          match insert username email password phone birthdate conn with
          | inr conn' => (redirect url_login, close (commit conn'))
          | inl IntegrityError =>
              (redirect (url_error msg_email_in_use), close conn)
          | inl e => (uncaught e, close conn)
          end
      end
  else (render_template register_html, db).

Definition login (req : request) (db : store) : response * store :=
  if is_post req then
    let email := strip (get (form req) "email" []) in
    let password := strip (get (form req) "password" []) in
    if negb (truthy email) || negb (truthy password)
    then (redirect (url_error msg_enter_credentials), db)
    else
      let conn := get_db_connection db in
      let user := select_by_credentials email password conn in
      let db' := close conn in
      match user with
      | Some user =>
          (render_template (welcome_html (Db.username user) (Db.iid user)),
           db')
      | None => (redirect (url_error msg_bad_credentials), db')
      end
  else (render_template login_html, db).

Definition error (req : request) : response :=
  let message := get (args req) "message" msg_unknown in
  render_template (error_html message).

Definition welcome (iid : Z) (db : store) : response * store :=
  let conn := get_db_connection db in
  match select_by_iid iid conn with
  | inl e => (uncaught e, close conn)
  | inr user =>
      let db' := close conn in
      match user with
      | None => (render_template (error_html msg_no_user), db')
      | Some user =>
          (render_template (welcome_html (Db.username user) (Db.iid user)),
           db')
      end
  end.

Definition edit_profile (iid : Z) (req : request) (db : store)
  : response * store :=
  let conn := get_db_connection db in
  match select_by_iid iid conn with
  | inl e => (uncaught e, close conn)
  | inr None => (render_template (error_html msg_no_user), close conn)
  | inr (Some user) =>
      if is_post req then
        let email := strip (get (form req) "email" []) in
        let password := strip (get (form req) "password" []) in
        let phone := strip (get (form req) "phone" []) in
        let birthdate := strip (get (form req) "birthdate" []) in
        if negb (truthy email) || negb (truthy password)
        then (render_template (error_html msg_enter_credentials),
              close conn)
        else
          match select_email_of_other email iid conn with
          | inl e => (uncaught e, close conn)
          | inr (Some _) =>
              (render_template (error_html msg_email_in_use), close conn)
          | inr None =>
              match update email password phone birthdate iid conn with
              | inr conn' => (redirect (url_welcome iid), close (commit conn'))
              | inl e => (uncaught e, close conn)
              end
          end
      else (render_template (edit_profile_html user), close conn)
  end.

Definition delete_user (iid : Z) (db : store) : response * store :=
  let conn := get_db_connection db in
  match Db.delete iid conn with
  | inl e => (uncaught e, close conn)
  | inr conn =>
      let conn := commit conn in
      (redirect url_index, close conn)
  end.

(** ** Requests in sequence *)

(** One request to one route. *)
Inductive call :=
| Index
| Register (req : request)
| Login (req : request)
| Error (req : request)
| Welcome (iid : Z)
| EditProfile (iid : Z) (req : request)
| DeleteUser (iid : Z).

Definition handle (c : call) (db : store) : response * store :=
  match c with
  | Index => (index, db)
  | Register req => register req db
  | Login req => login req db
  | Error req => (error req, db)
  | Welcome i => welcome i db
  | EditProfile i req => edit_profile i req db
  | DeleteUser i => delete_user i db
  end.

(** The database after a list of requests, served one after the other. *)
Definition run (cs : list call) (db : store) : store :=
  fold_left (fun db c => snd (handle c db)) cs db.

(** A POST carrying the given form fields. *)
Definition post (fields : multidict) : request :=
  {| method := POST; form := fields; args := [] |}.

(** ** Vocabulary of the statements *)

(** A form field as the handlers read it: first value, default [''],
    stripped. *)
Definition field (req : request) (key : string) : str :=
  strip (get (form req) key []).

(** The key was not sent at all. *)
Definition absent (req : request) (key : string) : Prop :=
  forall v, ~ In (key, v) (form req).

Definition usernames (db : store) : list str := map username (rows db).
Definition emails (db : store) : list str := map email (rows db).
Definition iids (db : store) : list Z := map iid (rows db).

(** The row a successful registration appends. *)
Definition new_member (db : store) (u e p ph b : str) : member :=
  {| iid := next_iid db; username := u; email := e; password := p;
     phone := Some ph; birthdate := Some b |}.

(** The database after a successful registration. *)
Definition registered (db : store) (u e p ph b : str) : store :=
  {| rows := rows db ++ [new_member db u e p ph b]; seq := next_iid db |}.

(** The database after a successful profile edit of row [i]. *)
Definition edited (db : store) (i : Z) (e p ph b : str) : store :=
  {| rows := map (set_where i e p ph b) (rows db); seq := seq db |}.

(** The database after the DELETE of row [i]. *)
Definition deleted (db : store) (i : Z) : store :=
  {| rows := filter (fun m => negb (has_iid i m)) (rows db); seq := seq db |}.

(** What the schema promises of any table: the primary key and the two
    UNIQUE columns never repeat. *)
Record schema_ok (db : store) : Prop := {
  iids_unique : NoDup (iids db);
  usernames_unique : NoDup (usernames db);
  emails_unique : NoDup (emails db)
}.

(** The Python type of a value. *)
Inductive pytype := NoneType | int | str_.

Definition type_of (v : value) : pytype :=
  match v with
  | VNone => NoneType
  | VInt _ => int
  | VStr _ => str_
  end.

(** The Python types of the six columns of a row. *)
Definition row_types (m : member) : list pytype := map type_of (columns m).

(** Every column of the row is a [str]. *)
Definition all_str (m : member) : Prop :=
  Forall (fun v => type_of v = str_) (columns m).

(** ** Sample requests *)

Definition alice : request :=
  post [("username", lit "alice"); ("email", lit "a@x.com");
        ("password", lit "p1")].

Definition bob : request :=
  post [("username", lit "bob"); ("email", lit "b@x.com");
        ("password", lit "p2"); ("phone", lit " 0912 ");
        ("birthdate", lit "2000-01-01")].

Definition carol : request :=
  post [("username", lit "carol"); ("email", lit "b@x.com");
        ("password", lit "p3")].

(** The database holding alice alone, and the one holding alice and bob. *)
Definition db_alice : store := run [Register alice] Db.empty.
Definition db_alice_bob : store := run [Register alice; Register bob] Db.empty.

(** An edit that sends a new email and leaves the password blank. *)
Definition edit_blank_password : request :=
  post [("email", lit "new@x.com"); ("password", lit ""); ("phone", lit "1")].

(** A registration under alice's username without a password. *)
Definition alice_again_no_password : request :=
  post [("username", lit "alice"); ("email", lit "other@x.com")].

(** A registration under a new username with alice's email and no
    password. *)
Definition dave_no_password : request :=
  post [("username", lit "dave"); ("email", lit "a@x.com")].

(** A login with alice's email and a blank password, and one with an email
    nobody registered. *)
Definition login_alice_blank : request :=
  post [("email", lit "a@x.com"); ("password", lit "")].

Definition login_nobody : request :=
  post [("email", lit "nobody@x.com"); ("password", lit "p1")].

(** A login with alice's email and a wrong password. *)
Definition login_alice_wrong : request :=
  post [("email", lit "a@x.com"); ("password", lit "p9")].

(** An edit that moves row 2 to alice's email, and one that keeps its own. *)
Definition edit_to_alice : request :=
  post [("email", lit "a@x.com"); ("password", lit "p2")].

Definition edit_keep_email : request :=
  post [("email", lit "b@x.com"); ("password", lit "q2")].

(** ** Vocabulary of the further properties *)

(** The response shows an error: the redirect to /error or the error
    template rendered in place. *)
Definition is_error (r : response) : bool :=
  match r with
  | redirect (url_error _) => true
  | render_template (error_html _) => true
  | _ => false
  end.

(** The requests that reach an INSERT, UPDATE or DELETE at all. *)
Definition writes (c : call) : bool :=
  match c with
  | Register req => is_post req
  | EditProfile _ req => is_post req
  | DeleteUser _ => true
  | _ => false
  end.

(** [s.strip() == s] *)
Definition stripped (s : str) : Prop := strip s = s.

(** A row as the handlers write it: the three required fields stripped and
    not empty, the two optional ones stripped strings. *)
Record tidy (m : member) : Prop := {
  tidy_username : username m <> [] /\ stripped (username m);
  tidy_email : email m <> [] /\ stripped (email m);
  tidy_password : password m <> [] /\ stripped (password m);
  tidy_phone : exists ph, phone m = Some ph /\ stripped ph;
  tidy_birthdate : exists b, birthdate m = Some b /\ stripped b
}.

(** Every id of the table is positive and the counter has passed it. *)
Definition bounded (db : store) : Prop :=
  forall m, In m (rows db) -> (1 <= iid m <= seq db)%Z.

(** An edit that moves bob to a new email. *)
Definition edit_move_email : request :=
  post [("email", lit "bob@y.org"); ("password", lit "p2")].

(** Alice's login, padded with blanks. *)
Definition login_alice_padded : request :=
  post [("email", lit "  a@x.com"); ("password", lit "p1  ")].

(** Bob's login. *)
Definition login_bob : request :=
  post [("email", lit "b@x.com"); ("password", lit "p2")].

(** A login with the credentials [edit_keep_email] sets. *)
Definition login_bob_new : request :=
  post [("email", lit "b@x.com"); ("password", lit "q2")].

(** Who a row is: its id and its username. *)
Definition identity (m : member) : Z * str := (iid m, username m).

(** The ids and usernames of the table, row by row. *)
Definition identities (db : store) : list (Z * str) :=
  map identity (rows db).

(** The smallest id the route accepts and SQLite cannot bind: 2^63. *)
Definition huge_id : Z := 9223372036854775808.

(** ** Basic facts about strings and queries *)

(** Leading and trailing blanks go, inner ones stay; the ideographic space
    U+3000 and the no-break space U+00A0 are blanks, the zero-width space
    U+200B is not. *)
Example strip_ascii : strip (lit "  a b   ") = lit "a b".
Proof. reflexivity. Qed.

Example strip_unicode :
  strip [12288; 97; 160]%N = [97]%N /\ strip [8203]%N = [8203]%N.
Proof. split; reflexivity. Qed.

Lemma strip_empty : strip [] = [].
Proof. reflexivity. Qed.


Section Queries.

Lemma truthy_true (s : str) : truthy s = true <-> s <> [].
Proof. destruct s; simpl; split; congruence. Qed.

Lemma truthy_false (s : str) : truthy s = false <-> s = [].
Proof. destruct s; simpl; split; congruence. Qed.

Lemma has_username_iff u m : has_username u m = true <-> username m = u.
Proof.
  unfold has_username. destruct (str_eq_dec (username m) u); split;
    congruence.
Qed.

Lemma has_email_iff e m : has_email e m = true <-> email m = e.
Proof.
  unfold has_email. destruct (str_eq_dec (email m) e); split; congruence.
Qed.

Lemma has_password_iff p m : has_password p m = true <-> password m = p.
Proof.
  unfold has_password. destruct (str_eq_dec (password m) p); split;
    congruence.
Qed.

Lemma has_iid_iff i m : has_iid i m = true <-> iid m = i.
Proof. unfold has_iid. apply Z.eqb_eq. Qed.

Lemma has_iid_false i m : has_iid i m = false <-> iid m <> i.
Proof. unfold has_iid. apply Z.eqb_neq. Qed.

Lemma find_existsb {A} (f : A -> bool) (l : list A) :
  find f l = None <-> existsb f l = false.
Proof.
  induction l as [|a l IH]; simpl.
  - tauto.
  - destruct (f a); simpl; [split; discriminate | exact IH].
Qed.

Lemma find_is_some {A} (f : A -> bool) (l : list A) :
  existsb f l = true -> exists a, find f l = Some a.
Proof.
  intros H. destruct (find f l) as [a|] eqn:E; [now exists a|].
  apply find_existsb in E. congruence.
Qed.

Lemma username_stored u l :
  existsb (has_username u) l = true <-> In u (map username l).
Proof.
  rewrite existsb_exists, in_map_iff. split.
  - intros (m & Hm & H). apply has_username_iff in H. now exists m.
  - intros (m & H & Hm). exists m. now rewrite has_username_iff.
Qed.

Lemma email_stored e l :
  existsb (has_email e) l = true <-> In e (map email l).
Proof.
  rewrite existsb_exists, in_map_iff. split.
  - intros (m & Hm & H). apply has_email_iff in H. now exists m.
  - intros (m & H & Hm). exists m. now rewrite has_email_iff.
Qed.

Lemma iid_stored i l :
  existsb (has_iid i) l = true <-> In i (map iid l).
Proof.
  rewrite existsb_exists, in_map_iff. split.
  - intros (m & Hm & H). apply has_iid_iff in H. now exists m.
  - intros (m & H & Hm). exists m. now rewrite has_iid_iff.
Qed.

Lemma not_stored {A} (f : A -> bool) (l : list A) :
  existsb f l = false <-> forall a, In a l -> f a = false.
Proof.
  split.
  - intros H a Ha. destruct (f a) eqn:E; [|reflexivity].
    rewrite <- H. symmetry. apply existsb_exists. now exists a.
  - intros H. destruct (existsb f l) eqn:E; [|reflexivity].
    apply existsb_exists in E. destruct E as (a & Ha & Hf).
    rewrite (H a Ha) in Hf. discriminate.
Qed.

(** The email is held by a row other than [i]. *)
Lemma email_of_other e i l :
  existsb (fun m => has_email e m && negb (has_iid i m)) l = true <->
  exists m, In m l /\ email m = e /\ iid m <> i.
Proof.
  rewrite existsb_exists. split.
  - intros (m & Hm & H). apply andb_true_iff in H. destruct H as [He Hi].
    apply has_email_iff in He. apply negb_true_iff, has_iid_false in Hi.
    now exists m.
  - intros (m & Hm & He & Hi). exists m. split; [assumption|].
    apply andb_true_iff. split.
    + now apply has_email_iff.
    + now apply negb_true_iff, has_iid_false.
Qed.

(** In a column without repetition a value names its row. *)
Lemma unique_column {A B} (f : A -> B) (l : list A) (a b : A) :
  NoDup (map f l) -> In a l -> In b l -> f a = f b -> a = b.
Proof.
  induction l as [|x l IH]; simpl; [tauto|].
  intros Hnd Ha Hb Hf. inversion Hnd as [|y l' Hx Hl]; subst.
  destruct Ha as [->|Ha], Hb as [->|Hb].
  - reflexivity.
  - exfalso. apply Hx. rewrite Hf. now apply in_map.
  - exfalso. apply Hx. rewrite <- Hf. now apply in_map.
  - now apply IH.
Qed.

End Queries.

(** ** The handlers, case by case *)

Section Handlers.

Variable req : request.
Variable db : store.

(** The three outcomes of a posted registration, in the order the handler
    reaches them. *)
Lemma register_post :
  is_post req = true ->
  register req db =
    let u := field req "username" in
    let e := field req "email" in
    let p := field req "password" in
    if negb (truthy u) || negb (truthy e) || negb (truthy p)
    then (redirect (url_error msg_enter_all), db)
    else if existsb (has_username u) (rows db)
    then (redirect (url_error msg_username_exists), db)
    else if existsb (has_email e) (rows db)
    then (redirect (url_error msg_email_in_use), db)
    else (redirect url_login,
          registered db u e p (field req "phone") (field req "birthdate")).
Proof.
  intros Hpost. unfold register, field. rewrite Hpost. cbv zeta.
  destruct (negb (truthy _) || negb (truthy _) || negb (truthy _));
    [reflexivity|].
  unfold select_iid_by_username, insert, get_db_connection, close, commit.
  simpl.
  destruct (existsb (has_username _) (rows db)) eqn:Hu.
  - apply find_is_some in Hu. destruct Hu as [m ->]. reflexivity.
  - apply find_existsb in Hu. rewrite Hu. simpl.
    destruct (existsb (has_email _) (rows db)); reflexivity.
Qed.

Lemma login_post :
  is_post req = true ->
  login req db =
    let e := field req "email" in
    let p := field req "password" in
    if negb (truthy e) || negb (truthy p)
    then (redirect (url_error msg_enter_credentials), db)
    else
      match find (fun m => has_email e m && has_password p m) (rows db)
      with
      | Some user =>
          (render_template (welcome_html (username user) (iid user)), db)
      | None => (redirect (url_error msg_bad_credentials), db)
      end.
Proof.
  intros Hpost. unfold login, field. rewrite Hpost. reflexivity.
Qed.

Variable i : Z.

(** A posted edit of a stored row never reaches the UPDATE with an email
    another row holds, so the statement cannot raise. *)
Lemma edit_profile_post :
  is_post req = true ->
  In i (iids db) ->
  int64 i = true ->
  edit_profile i req db =
    let e := field req "email" in
    let p := field req "password" in
    if negb (truthy e) || negb (truthy p)
    then (render_template (error_html msg_enter_credentials), db)
    else if existsb (fun m => has_email e m && negb (has_iid i m)) (rows db)
    then (render_template (error_html msg_email_in_use), db)
    else (redirect (url_welcome i),
          edited db i e p (field req "phone") (field req "birthdate")).
Proof.
  intros Hpost Hi H64. unfold edit_profile, field, select_by_iid.
  apply iid_stored, find_is_some in Hi. destruct Hi as [user Huser].
  unfold get_db_connection at 1. simpl. unfold iids in *.
  rewrite H64, Huser, Hpost. cbv zeta.
  destruct (negb (truthy _) || negb (truthy _)); [reflexivity|].
  unfold select_email_of_other, update, get_db_connection, close, commit.
  simpl. rewrite H64. simpl.
  destruct (existsb (fun m => has_email _ m && negb (has_iid i m)) (rows db))
    eqn:Ho.
  - apply find_is_some in Ho. destruct Ho as [m ->]. reflexivity.
  - apply find_existsb in Ho. rewrite Ho. simpl.
    rewrite andb_false_r. reflexivity.
Qed.

Lemma edit_profile_no_user :
  ~ In i (iids db) ->
  int64 i = true ->
  edit_profile i req db = (render_template (error_html msg_no_user), db).
Proof.
  intros Hi H64. unfold edit_profile, select_by_iid, get_db_connection.
  simpl. rewrite H64.
  destruct (find (has_iid i) (rows db)) as [m|] eqn:E; [|reflexivity].
  apply find_some in E. destruct E as [Hm Hid].
  apply has_iid_iff in Hid. exfalso. apply Hi. unfold iids.
  rewrite <- Hid. now apply in_map.
Qed.

(** An id that is no 64-bit integer makes the first statement that binds it
    raise; nothing was written. *)
Lemma edit_profile_overflow :
  int64 i = false -> edit_profile i req db = (uncaught OverflowError, db).
Proof.
  intros H64. unfold edit_profile, select_by_iid. now rewrite H64.
Qed.

Lemma welcome_overflow :
  int64 i = false -> welcome i db = (uncaught OverflowError, db).
Proof. intros H64. unfold welcome, select_by_iid. now rewrite H64. Qed.

Lemma delete_user_overflow :
  int64 i = false -> delete_user i db = (uncaught OverflowError, db).
Proof. intros H64. unfold delete_user, Db.delete. now rewrite H64. Qed.

Lemma edit_profile_get :
  is_post req = false -> snd (edit_profile i req db) = db.
Proof.
  intros Hget. unfold edit_profile, select_by_iid, get_db_connection.
  simpl. destruct (int64 i); [|reflexivity].
  destruct (find (has_iid i) (rows db)); [|reflexivity].
  rewrite Hget. reflexivity.
Qed.

Lemma delete_user_eq :
  int64 i = true -> delete_user i db = (redirect url_index, deleted db i).
Proof. intros H64. unfold delete_user, Db.delete. now rewrite H64. Qed.

Lemma login_keeps : snd (login req db) = db.
Proof.
  unfold login. destruct (is_post req); [|reflexivity]. cbv zeta.
  destruct (negb (truthy _) || negb (truthy _)); [reflexivity|].
  destruct (select_by_credentials _ _ _); reflexivity.
Qed.

Lemma welcome_keeps : snd (welcome i db) = db.
Proof.
  unfold welcome. cbv zeta.
  destruct (select_by_iid _ _) as [e|[user|]]; reflexivity.
Qed.

End Handlers.

(** ** Rows and columns under the three statements that write *)

Section Columns.

Lemma NoDup_snoc {A} (l : list A) (a : A) :
  NoDup l -> ~ In a l -> NoDup (l ++ [a]).
Proof.
  induction l as [|x l IH]; simpl; intros Hnd Ha.
  - constructor; [auto | constructor].
  - inversion Hnd as [|y l' Hx Hl]; subst. constructor.
    + rewrite in_app_iff. simpl. intros [H|[H|[]]]; [tauto|].
      apply Ha. now left.
    + apply IH; tauto.
Qed.

(** A column that never repeats still never repeats once the rows with id
    [i] are gone. *)
Lemma column_after_delete {B} (col : member -> B) (i : Z) (l : list member) :
  NoDup (map col l) ->
  NoDup (map col (filter (fun m => negb (has_iid i m)) l)).
Proof.
  intros Hnd. induction l as [|r l IH]; simpl in *.
  - exact Hnd.
  - apply NoDup_cons_iff in Hnd. destruct Hnd as [Hr Hl].
    destruct (has_iid i r); simpl.
    + now apply IH.
    + apply NoDup_cons_iff. split; [|now apply IH].
      contradict Hr. apply in_map_iff in Hr.
      destruct Hr as (r' & Hcol & Hr'). apply filter_In, proj1 in Hr'.
      rewrite <- Hcol. now apply in_map.
Qed.

Lemma iid_le_max (l : list member) (m : member) :
  In m l -> (iid m <= max_iid l)%Z.
Proof.
  unfold max_iid. induction l as [|x l IH]; simpl; [tauto|].
  intros [->|H]; [lia|]. specialize (IH H). lia.
Qed.

(** AUTOINCREMENT never hands out a rowid the table holds. *)
Lemma next_iid_fresh (db : store) : ~ In (next_iid db) (iids db).
Proof.
  unfold iids. rewrite in_map_iff. intros (m & Hm & Hin).
  apply iid_le_max in Hin. unfold next_iid in Hm. lia.
Qed.

Variables (i : Z) (e p ph b : str).

Lemma upd_iid m : iid (set_where i e p ph b m) = iid m.
Proof. unfold set_where. destruct (has_iid i m); reflexivity. Qed.

Lemma upd_username m : username (set_where i e p ph b m) = username m.
Proof. unfold set_where. destruct (has_iid i m); reflexivity. Qed.

Lemma upd_other m : iid m <> i -> set_where i e p ph b m = m.
Proof.
  intros H. unfold set_where. apply has_iid_false in H. now rewrite H.
Qed.

Lemma upd_email m :
  email (set_where i e p ph b m) = if has_iid i m then e else email m.
Proof. unfold set_where. destruct (has_iid i m); reflexivity. Qed.

Lemma edited_iids db : iids (edited db i e p ph b) = iids db.
Proof.
  unfold iids, edited. simpl. rewrite map_map. apply map_ext.
  intros m. apply upd_iid.
Qed.

Lemma edited_usernames db : usernames (edited db i e p ph b) = usernames db.
Proof.
  unfold usernames, edited. simpl. rewrite map_map. apply map_ext.
  intros m. apply upd_username.
Qed.

(** The UPDATE keeps the emails apart when no other row holds the new
    one. *)
Lemma edited_emails (l : list member) :
  NoDup (map iid l) -> NoDup (map email l) ->
  (forall m, In m l -> email m = e -> iid m = i) ->
  NoDup (map email (map (set_where i e p ph b) l)).
Proof.
  induction l as [|a l IH]; simpl; intros Hid Hem Hfree; [constructor|].
  inversion Hid as [|x1 l1 Ha1 Hl1]; subst.
  inversion Hem as [|x2 l2 Ha2 Hl2]; subst.
  constructor; [|apply IH; auto].
  rewrite map_map, in_map_iff. intros (m & Heq & Hm).
  rewrite !upd_email in Heq.
  destruct (has_iid i a) eqn:Ea, (has_iid i m) eqn:Em.
  - apply has_iid_iff in Ea, Em. apply Ha1. rewrite Ea, <- Em.
    now apply in_map.
  - apply has_iid_false in Em. apply Em. apply Hfree; auto.
  - apply has_iid_false in Ea. apply Ea. apply Hfree; auto.
  - apply Ha2. rewrite <- Heq. now apply in_map.
Qed.

End Columns.

(** ** The schema holds after every request *)

Section Invariant.

Lemma empty_schema_ok : schema_ok Db.empty.
Proof. split; constructor. Qed.

Lemma registered_schema_ok db u e p ph b :
  schema_ok db -> ~ In u (usernames db) -> ~ In e (emails db) ->
  schema_ok (registered db u e p ph b).
Proof.
  intros [Hi Hu He] Hnu Hne.
  split; unfold iids, usernames, emails, registered; simpl;
    rewrite map_app; simpl; apply NoDup_snoc; auto.
  apply next_iid_fresh.
Qed.

Lemma edited_schema_ok db i e p ph b :
  schema_ok db ->
  (forall m, In m (rows db) -> email m = e -> iid m = i) ->
  schema_ok (edited db i e p ph b).
Proof.
  intros [Hi Hu He] Hfree. split.
  - now rewrite edited_iids.
  - now rewrite edited_usernames.
  - unfold emails, edited. simpl. now apply edited_emails.
Qed.

Lemma deleted_schema_ok db i : schema_ok db -> schema_ok (deleted db i).
Proof.
  intros [Hi Hu He].
  split; unfold iids, usernames, emails, deleted; simpl;
    now apply column_after_delete.
Qed.

Lemma register_get req db : is_post req = false -> register req db =
  (render_template register_html, db).
Proof. intros H. unfold register. now rewrite H. Qed.

Lemma register_schema_ok req db :
  schema_ok db -> schema_ok (snd (register req db)).
Proof.
  intros Hok. destruct (is_post req) eqn:Hpost.
  - rewrite register_post by assumption. cbv zeta.
    destruct (negb (truthy _) || negb (truthy _) || negb (truthy _));
      [assumption|].
    destruct (existsb (has_username _) _) eqn:Hu; [assumption|].
    destruct (existsb (has_email _) _) eqn:He; [assumption|].
    simpl. apply registered_schema_ok; [assumption| |].
    + unfold usernames. rewrite <- username_stored. congruence.
    + unfold emails. rewrite <- email_stored. congruence.
  - now rewrite register_get.
Qed.

Lemma edit_profile_schema_ok i req db :
  schema_ok db -> schema_ok (snd (edit_profile i req db)).
Proof.
  intros Hok. destruct (is_post req) eqn:Hpost;
    [|now rewrite edit_profile_get].
  destruct (int64 i) eqn:H64; [|now rewrite edit_profile_overflow].
  destruct (in_dec Z.eq_dec i (iids db)) as [Hi|Hi];
    [|now rewrite edit_profile_no_user].
  rewrite edit_profile_post by assumption. cbv zeta.
  destruct (negb (truthy _) || negb (truthy _)); [assumption|].
  destruct (existsb _ (rows db)) eqn:Ho; [assumption|].
  simpl. apply edited_schema_ok; [assumption|].
  intros m Hm He. destruct (Z.eq_dec (iid m) i) as [|Hne]; [assumption|].
  exfalso. assert (H : existsb
    (fun m => has_email (field req "email") m && negb (has_iid i m))
    (rows db) = true) by (apply email_of_other; now exists m).
  congruence.
Qed.

Lemma handle_schema_ok c db : schema_ok db -> schema_ok (snd (handle c db)).
Proof.
  intros Hok. destruct c as [|req|req|req|i|i req|i]; simpl;
    try assumption.
  - now apply register_schema_ok.
  - now rewrite login_keeps.
  - now rewrite welcome_keeps.
  - now apply edit_profile_schema_ok.
  - destruct (int64 i) eqn:H64.
    + rewrite delete_user_eq by assumption. now apply deleted_schema_ok.
    + now rewrite delete_user_overflow.
Qed.

Lemma run_schema_ok cs : forall db, schema_ok db -> schema_ok (run cs db).
Proof.
  unfold run. induction cs as [|c cs IH]; simpl; intros db Hok.
  - assumption.
  - apply IH. now apply handle_schema_ok.
Qed.

End Invariant.

(** ** Registration and login *)

Section Lookup.

Lemma find_snoc {A} (f : A -> bool) (l : list A) (a : A) :
  existsb f l = false -> f a = true -> find f (l ++ [a]) = Some a.
Proof.
  induction l as [|x l IH]; simpl; intros Hl Ha.
  - now rewrite Ha.
  - apply orb_false_iff in Hl. destruct Hl as [Hx Hl]. rewrite Hx.
    now apply IH.
Qed.

Lemma no_email_no_match e p (l : list member) :
  ~ In e (map email l) ->
  existsb (fun m => has_email e m && has_password p m) l = false.
Proof.
  intros He. apply not_stored. intros m Hm.
  destruct (has_email e m) eqn:E; [|reflexivity].
  apply has_email_iff in E. exfalso. apply He. rewrite <- E.
  now apply in_map.
Qed.

Lemma nonempty_pass (u e p : str) :
  u <> [] -> e <> [] -> p <> [] ->
  negb (truthy u) || negb (truthy e) || negb (truthy p) = false.
Proof.
  intros Hu He Hp. apply truthy_true in Hu, He, Hp.
  now rewrite Hu, He, Hp.
Qed.

Lemma nonempty_pass2 (e p : str) :
  e <> [] -> p <> [] -> negb (truthy e) || negb (truthy p) = false.
Proof.
  intros He Hp. apply truthy_true in He, Hp. now rewrite He, Hp.
Qed.

Lemma username_free u db :
  ~ In u (usernames db) -> existsb (has_username u) (rows db) = false.
Proof.
  intros H. destruct (existsb _ _) eqn:E; [|reflexivity].
  apply username_stored in E. contradiction.
Qed.

Lemma email_free e db :
  ~ In e (emails db) -> existsb (has_email e) (rows db) = false.
Proof.
  intros H. destruct (existsb _ _) eqn:E; [|reflexivity].
  apply email_stored in E. contradiction.
Qed.

End Lookup.

(** C1.  A POST to /register whose username, email and password are not
    empty once stripped, and whose username and email no stored row holds,
    appends exactly one row with the submitted fields and the next rowid and
    redirects to the login view; a POST to /login carrying the same email
    and password then renders the welcome view with that username and that
    rowid. *)
Theorem register_then_login (req req' : request) (db : store) :
  let u := field req "username" in
  let e := field req "email" in
  let p := field req "password" in
  let m := new_member db u e p (field req "phone") (field req "birthdate") in
  let db' := registered db u e p (field req "phone") (field req "birthdate") in
  is_post req = true -> is_post req' = true ->
  u <> [] -> e <> [] -> p <> [] ->
  ~ In u (usernames db) -> ~ In e (emails db) ->
  field req' "email" = e -> field req' "password" = p ->
  register req db = (redirect url_login, db') /\
  rows db' = rows db ++ [m] /\
  login req' db' = (render_template (welcome_html u (iid m)), db').
Proof.
  intros u e p m db' Hpost Hpost' Hu He Hp Hnu Hne He' Hp'.
  split; [|split].
  - rewrite register_post by assumption. cbv zeta. fold u e p.
    rewrite nonempty_pass by assumption.
    rewrite username_free, email_free by assumption. reflexivity.
  - reflexivity.
  - rewrite login_post by assumption. cbv zeta. rewrite He', Hp'.
    rewrite nonempty_pass2 by assumption.
    unfold db', registered. simpl. fold m.
    rewrite (@find_snoc _ _ (rows db) m).
    + reflexivity.
    + now apply no_email_no_match.
    + apply andb_true_iff. split;
        [apply has_email_iff | apply has_password_iff]; reflexivity.
Qed.

Lemma register_then_login_witness :
  register alice Db.empty = (redirect url_login, db_alice) /\
  login alice db_alice =
    (render_template (welcome_html (lit "alice") 1), db_alice).
Proof.
  destruct (@register_then_login alice alice Db.empty) as (H1 & _ & H2);
    [reflexivity | reflexivity | discriminate | discriminate | discriminate
    | simpl; tauto | simpl; tauto | reflexivity | reflexivity |].
  split; [exact H1 | exact H2].
Defined.

(** The first scenario of the specification. *)
Example scenario_alice :
  let db := snd (register alice Db.empty) in
  login (post [("email", lit "a@x.com"); ("password", lit "p1")]) db =
    (render_template (welcome_html (lit "alice") 1), db).
Proof. reflexivity. Qed.

(** The second scenario of the specification. *)
Example scenario_bob_carol :
  let db := snd (register bob Db.empty) in
  register carol db = (redirect (url_error msg_email_in_use), db).
Proof. reflexivity. Qed.

(** C2.  From the empty table, after any sequence of requests to the routes
    (register, edit_profile and delete_user among them), no two rows share
    a username and no two rows share an email. *)
Theorem uniqueness_invariant (cs : list call) :
  NoDup (usernames (run cs Db.empty)) /\ NoDup (emails (run cs Db.empty)).
Proof.
  destruct (run_schema_ok cs empty_schema_ok) as [_ Hu He]. now split.
Qed.

(** C3.  A POST to /register is decided in this order: an empty stripped
    username, email or password gives the enter-all-fields error; otherwise
    a stored username gives the username-exists error; otherwise the INSERT
    is tried, its IntegrityError (raised there exactly when the email is
    stored) gives the email-in-use error, and its success is committed and
    answered with the redirect to the login view. *)
Theorem register_validation_order (req : request) (db : store) :
  let u := field req "username" in
  let e := field req "email" in
  let p := field req "password" in
  let tried := insert u e p (field req "phone") (field req "birthdate")
                 (get_db_connection db) in
  is_post req = true ->
  (u = [] \/ e = [] \/ p = [] ->
   register req db = (redirect (url_error msg_enter_all), db)) /\
  (u <> [] -> e <> [] -> p <> [] -> In u (usernames db) ->
   register req db = (redirect (url_error msg_username_exists), db)) /\
  (u <> [] -> e <> [] -> p <> [] -> ~ In u (usernames db) ->
   (tried = inl IntegrityError <-> In e (emails db)) /\
   match tried with
   | inl _ => register req db = (redirect (url_error msg_email_in_use), db)
   | inr conn => register req db = (redirect url_login, view conn)
   end).
Proof.
  intros u e p tried Hpost. rewrite register_post by assumption.
  cbv zeta. fold u e p. split; [|split].
  - intros H.
    assert (Hc : negb (truthy u) || negb (truthy e) || negb (truthy p) = true).
    { destruct H as [H|[H|H]]; apply truthy_false in H; rewrite H;
        destruct (truthy u), (truthy e), (truthy p); reflexivity. }
    now rewrite Hc.
  - intros Hu He Hp Hin. rewrite nonempty_pass by assumption.
    apply username_stored in Hin. unfold usernames in Hin. now rewrite Hin.
  - intros Hu He Hp Hnu. rewrite nonempty_pass by assumption.
    rewrite username_free by assumption.
    unfold tried, insert, get_db_connection. simpl.
    rewrite username_free by assumption. simpl.
    destruct (existsb (has_email e) (rows db)) eqn:E.
    + split; [|reflexivity]. split; [intros _ | reflexivity].
      now apply email_stored in E.
    + split; [|reflexivity]. split; [discriminate|].
      intros Hin. apply email_stored in Hin. unfold emails in Hin.
      congruence.
Qed.

Lemma register_validation_order_witness :
  register (post [("username", lit "dave"); ("email", lit " ")]) db_alice =
    (redirect (url_error msg_enter_all), db_alice) /\
  register (post [("username", lit " alice"); ("email", lit "z@x.com");
                  ("password", lit "pw")]) db_alice =
    (redirect (url_error msg_username_exists), db_alice).
Proof.
  split.
  - apply register_validation_order; [reflexivity|]. right. left. reflexivity.
  - apply register_validation_order;
      [reflexivity | discriminate | discriminate | discriminate|].
    simpl. left. reflexivity.
Defined.

(** ** Editing a profile *)

(** C4, as stated, fails: row 1 is stored, the submitted email is held by no
    row at all, and yet the POST is answered with the enter-email-and-password
    error and changes nothing, because the password is blank. *)
Lemma edit_profile_blank_password_rejected :
  In 1%Z (iids db_alice) /\
  (forall m, In m (rows db_alice) ->
             email m = field edit_blank_password "email" -> iid m = 1%Z) /\
  edit_profile 1 edit_blank_password db_alice =
    (render_template (error_html msg_enter_credentials), db_alice) /\
  fst (edit_profile 1 edit_blank_password db_alice) <>
    redirect (url_welcome 1).
Proof.
  split; [simpl; tauto|]. split; [|split].
  - intros m [<-|[]] H. reflexivity.
  - reflexivity.
  - discriminate.
Qed.

(** C4, amended.  For a stored row [i] (its id a 64-bit integer, as every
    stored id is) and a POST to /edit_profile/i: when the stripped email or
    password is empty the answer is the enter-email-and-password error and
    the database is unchanged.  Otherwise: when a row with another id holds
    the email the answer is the email-in-use error and the database is
    unchanged; when no other row holds it the row is updated and the answer
    is the redirect to the welcome view of [i]; with emails unique in the
    table, the row's own current email is such an email. *)
Theorem edit_profile_email_check (i : Z) (req : request) (db : store) :
  let e := field req "email" in
  let p := field req "password" in
  let db' := edited db i e p (field req "phone") (field req "birthdate") in
  In i (iids db) -> int64 i = true -> is_post req = true ->
  (e = [] \/ p = [] ->
   edit_profile i req db =
     (render_template (error_html msg_enter_credentials), db)) /\
  (e <> [] -> p <> [] ->
   (exists m, In m (rows db) /\ email m = e /\ iid m <> i) ->
   edit_profile i req db =
     (render_template (error_html msg_email_in_use), db)) /\
  (e <> [] -> p <> [] ->
   (forall m, In m (rows db) -> email m = e -> iid m = i) ->
   edit_profile i req db = (redirect (url_welcome i), db')) /\
  (e <> [] -> p <> [] ->
   forall m, NoDup (emails db) -> In m (rows db) -> iid m = i ->
             email m = e ->
   edit_profile i req db = (redirect (url_welcome i), db')).
Proof.
  intros e p db' Hi H64 Hpost.
  rewrite edit_profile_post by assumption. cbv zeta. fold e p.
  assert (Hfree : (forall m, In m (rows db) -> email m = e -> iid m = i) ->
                  existsb (fun m => has_email e m && negb (has_iid i m))
                    (rows db) = false).
  { intros Hfree. apply not_stored. intros m Hm.
    destruct (has_email e m) eqn:E; [|reflexivity].
    apply has_email_iff in E. apply (Hfree m Hm) in E.
    apply has_iid_iff in E. now rewrite E. }
  split; [|split; [|split]].
  - intros [H|H]; apply truthy_false in H; rewrite H;
      [reflexivity | now rewrite orb_true_r].
  - intros He Hp Hother. rewrite nonempty_pass2 by assumption.
    apply email_of_other in Hother. now rewrite Hother.
  - intros He Hp H. rewrite nonempty_pass2 by assumption. now rewrite Hfree.
  - intros He Hp m Hnd Hm Hid Hem. rewrite nonempty_pass2 by assumption.
    rewrite Hfree; [reflexivity|].
    intros m' Hm' Hem'. rewrite <- Hid. f_equal.
    apply (unique_column email (rows db)); try assumption. congruence.
Qed.

Lemma edit_profile_email_check_witness :
  edit_profile 2 edit_blank_password db_alice_bob =
    (render_template (error_html msg_enter_credentials), db_alice_bob) /\
  edit_profile 2 edit_to_alice db_alice_bob =
    (render_template (error_html msg_email_in_use), db_alice_bob) /\
  edit_profile 2 edit_keep_email db_alice_bob =
    (redirect (url_welcome 2),
     edited db_alice_bob 2 (lit "b@x.com") (lit "q2") [] []).
Proof.
  split; [|split].
  - destruct (@edit_profile_email_check 2 edit_blank_password db_alice_bob)
      as (H & _); [simpl; tauto | reflexivity | reflexivity |].
    apply H. right. reflexivity.
  - destruct (@edit_profile_email_check 2 edit_to_alice db_alice_bob)
      as (_ & H & _); [simpl; tauto | reflexivity | reflexivity |].
    apply H; [discriminate | discriminate |].
    eexists. split; [left; reflexivity|]. split; [reflexivity|discriminate].
  - destruct (@edit_profile_email_check 2 edit_keep_email db_alice_bob)
      as (_ & _ & H & _); [simpl; tauto | reflexivity | reflexivity |].
    apply H; [discriminate | discriminate |].
    intros m [<-|[<-|[]]] E; [discriminate E | reflexivity].
Defined.

(** ** Registration against a stored username or email *)

(** C5, as stated, fails: alice is stored, the registration names alice
    again, and with the password left out the answer is the
    enter-all-fields error, not the username-exists error. *)
Lemma register_existing_username_no_password :
  In (lit "alice") (usernames db_alice) /\
  field alice_again_no_password "username" = lit "alice" /\
  register alice_again_no_password db_alice =
    (redirect (url_error msg_enter_all), db_alice) /\
  fst (register alice_again_no_password db_alice) <>
    redirect (url_error msg_username_exists).
Proof.
  split; [simpl; tauto|]. split; [reflexivity|]. split; [reflexivity|].
  discriminate.
Qed.

(** C5, amended.  When a stored row holds the stripped username of a POST to
    /register, and the stripped username, email and password are not empty,
    the answer is the username-exists error and the database is unchanged,
    whatever email, password, phone and birthdate are. *)
Theorem register_existing_username (req : request) (db : store) :
  let u := field req "username" in
  let e := field req "email" in
  let p := field req "password" in
  is_post req = true -> u <> [] -> e <> [] -> p <> [] ->
  In u (usernames db) ->
  register req db = (redirect (url_error msg_username_exists), db).
Proof.
  intros u e p Hpost Hu He Hp Hin.
  rewrite register_post by assumption. cbv zeta. fold u e p.
  rewrite nonempty_pass by assumption.
  apply username_stored in Hin. unfold usernames in Hin. now rewrite Hin.
Qed.

Lemma register_existing_username_witness :
  register
    (post [("username", lit "alice"); ("email", lit "other@x.com");
           ("password", lit "zz"); ("phone", lit "7")]) db_alice =
    (redirect (url_error msg_username_exists), db_alice).
Proof.
  apply register_existing_username;
    [reflexivity | discriminate | discriminate | discriminate |].
  simpl. tauto.
Defined.

(** C6, as stated, fails: alice's email is stored, the registration brings a
    username no row holds together with that email, and with the password
    left out the answer is the enter-all-fields error, not the email-in-use
    error. *)
Lemma register_existing_email_no_password :
  In (field dave_no_password "email") (emails db_alice) /\
  ~ In (field dave_no_password "username") (usernames db_alice) /\
  register dave_no_password db_alice =
    (redirect (url_error msg_enter_all), db_alice) /\
  fst (register dave_no_password db_alice) <>
    redirect (url_error msg_email_in_use).
Proof.
  split; [simpl; tauto|]. split; [|split].
  - simpl. intros [H|[]]. discriminate H.
  - reflexivity.
  - discriminate.
Qed.

(** C6, amended.  When the stripped username, email and password of a POST
    to /register are not empty, no stored row holds the username and a
    stored row holds the email, the username query finds nothing, the INSERT
    raises IntegrityError, the answer is the email-in-use error and the
    database is unchanged. *)
Theorem register_existing_email (req : request) (db : store) :
  let u := field req "username" in
  let e := field req "email" in
  let p := field req "password" in
  let conn := get_db_connection db in
  is_post req = true -> u <> [] -> e <> [] -> p <> [] ->
  ~ In u (usernames db) -> In e (emails db) ->
  select_iid_by_username u conn = None /\
  insert u e p (field req "phone") (field req "birthdate") conn =
    inl IntegrityError /\
  register req db = (redirect (url_error msg_email_in_use), db).
Proof.
  intros u e p conn Hpost Hu He Hp Hnu Hin.
  apply username_free in Hnu. apply email_stored in Hin.
  unfold emails in Hin. split; [|split].
  - unfold select_iid_by_username, conn, get_db_connection. simpl.
    apply find_existsb in Hnu. now rewrite Hnu.
  - unfold insert, conn, get_db_connection. simpl. now rewrite Hnu, Hin.
  - rewrite register_post by assumption. cbv zeta. fold u e p.
    rewrite nonempty_pass by assumption. now rewrite Hnu, Hin.
Qed.

Lemma register_existing_email_witness :
  register carol (snd (register bob Db.empty)) =
    (redirect (url_error msg_email_in_use), snd (register bob Db.empty)).
Proof.
  apply register_existing_email;
    [reflexivity | discriminate | discriminate | discriminate | |].
  - simpl. intros [H|[]]. discriminate H.
  - simpl. tauto.
Defined.

(** ** Failed logins *)

(** C7, as stated, fails: against the table holding alice, the login with
    her email and a blank (hence wrong) password and the login with an email
    nobody registered are answered with different messages. *)
Lemma login_blank_password_differs :
  In (field login_alice_blank "email") (emails db_alice) /\
  (forall m, In m (rows db_alice) ->
             password m <> field login_alice_blank "password") /\
  ~ In (field login_nobody "email") (emails db_alice) /\
  login login_alice_blank db_alice =
    (redirect (url_error msg_enter_credentials), db_alice) /\
  login login_nobody db_alice =
    (redirect (url_error msg_bad_credentials), db_alice) /\
  fst (login login_alice_blank db_alice) <> fst (login login_nobody db_alice).
Proof.
  split; [simpl; tauto|]. split; [|split; [|split; [|split]]].
  - intros m [<-|[]]. discriminate.
  - simpl. intros [H|[]]. discriminate H.
  - reflexivity.
  - reflexivity.
  - discriminate.
Qed.

(** C7, amended.  Against one table with unique emails, take two POSTs to
    /login whose stripped email and password are not empty: one with the
    email of a stored member and a password other than that member's, one
    with an email no row holds.  Both are answered with the same redirect to
    the error view with the incorrect-email-or-password message, and both
    leave the database as it was. *)
Theorem login_failures_alike (req1 req2 : request) (db : store) (m : member) :
  is_post req1 = true -> is_post req2 = true ->
  field req1 "email" <> [] -> field req1 "password" <> [] ->
  field req2 "email" <> [] -> field req2 "password" <> [] ->
  NoDup (emails db) -> In m (rows db) ->
  field req1 "email" = email m -> field req1 "password" <> password m ->
  ~ In (field req2 "email") (emails db) ->
  login req1 db = (redirect (url_error msg_bad_credentials), db) /\
  login req2 db = login req1 db.
Proof.
  intros Hp1 Hp2 He1 Hw1 He2 Hw2 Hnd Hm Hem Hpw Hno.
  assert (H1 : login req1 db = (redirect (url_error msg_bad_credentials), db)).
  { rewrite login_post by assumption. cbv zeta.
    rewrite nonempty_pass2 by assumption.
    assert (Hf : find (fun m0 => has_email (field req1 "email") m0
                                 && has_password (field req1 "password") m0)
                   (rows db) = None).
    { apply find_existsb, not_stored. intros m' Hm'.
      destruct (has_email _ m') eqn:E; [|reflexivity].
      apply has_email_iff in E. simpl.
      assert (m' = m) as ->.
      { apply (unique_column email (rows db)); try assumption. congruence. }
      destruct (has_password _ m) eqn:P; [|reflexivity].
      apply has_password_iff in P. congruence. }
    now rewrite Hf. }
  split; [exact H1|]. rewrite H1.
  rewrite login_post by assumption. cbv zeta.
  rewrite nonempty_pass2 by assumption.
  assert (Hf : find (fun m0 => has_email (field req2 "email") m0
                               && has_password (field req2 "password") m0)
                 (rows db) = None).
  { apply find_existsb. now apply no_email_no_match. }
  now rewrite Hf.
Qed.

Lemma login_failures_alike_witness :
  login login_alice_wrong db_alice =
    (redirect (url_error msg_bad_credentials), db_alice) /\
  login login_nobody db_alice = login login_alice_wrong db_alice.
Proof.
  apply (@login_failures_alike login_alice_wrong login_nobody db_alice
           (new_member Db.empty (lit "alice") (lit "a@x.com") (lit "p1")
              [] []));
    try reflexivity; try discriminate.
  - repeat constructor. simpl. tauto.
  - simpl. tauto.
  - simpl. intros [H|[]]. discriminate H.
Defined.

(** ** Deleting *)

Section Delete.

(** The DELETE keeps a list none of whose rows has the id. *)
Lemma delete_keeps (i : Z) (l : list member) :
  (forall m, In m l -> iid m <> i) ->
  filter (fun m => negb (has_iid i m)) l = l.
Proof.
  intros H. apply forallb_filter_id, forallb_forall. intros m Hm.
  apply negb_true_iff, has_iid_false. now apply H.
Qed.




End Delete.




(** ** What a request can do to the table *)

Section Outcomes.

Lemma register_success req db :
  fst (register req db) = redirect url_login ->
  is_post req = true /\
  snd (register req db) =
    registered db (field req "username") (field req "email")
      (field req "password") (field req "phone") (field req "birthdate").
Proof.
  destruct (is_post req) eqn:Hpost;
    [|rewrite register_get by assumption; discriminate].
  rewrite register_post by assumption. cbv zeta.
  destruct (negb (truthy _) || negb (truthy _) || negb (truthy _));
    [discriminate|].
  destruct (existsb (has_username _) _); [discriminate|].
  destruct (existsb (has_email _) _); [discriminate|]. auto.
Qed.

Lemma register_failure req db :
  fst (register req db) <> redirect url_login -> snd (register req db) = db.
Proof.
  destruct (is_post req) eqn:Hpost;
    [|now rewrite register_get by assumption].
  rewrite register_post by assumption. cbv zeta.
  destruct (negb (truthy _) || negb (truthy _) || negb (truthy _));
    [reflexivity|].
  destruct (existsb (has_username _) _); [reflexivity|].
  destruct (existsb (has_email _) _); [reflexivity|].
  simpl. congruence.
Qed.

Lemma edit_profile_get_response i req db :
  is_post req = false ->
  fst (edit_profile i req db) <> redirect (url_welcome i).
Proof.
  intros Hget. unfold edit_profile, select_by_iid, get_db_connection.
  simpl. destruct (int64 i); [|discriminate].
  destruct (find (has_iid i) (rows db)); [|discriminate].
  rewrite Hget. discriminate.
Qed.

Lemma edit_profile_success i req db :
  fst (edit_profile i req db) = redirect (url_welcome i) ->
  is_post req = true /\ In i (iids db) /\
  snd (edit_profile i req db) =
    edited db i (field req "email") (field req "password")
      (field req "phone") (field req "birthdate").
Proof.
  destruct (is_post req) eqn:Hpost;
    [|intros H; now apply edit_profile_get_response in H].
  destruct (int64 i) eqn:H64;
    [|rewrite edit_profile_overflow by assumption; discriminate].
  destruct (in_dec Z.eq_dec i (iids db)) as [Hi|Hi];
    [|rewrite edit_profile_no_user by assumption; discriminate].
  rewrite edit_profile_post by assumption. cbv zeta.
  destruct (negb (truthy _) || negb (truthy _)); [discriminate|].
  destruct (existsb _ (rows db)); [discriminate|]. auto.
Qed.

Lemma response_eq_dec (r r' : response) : {r = r'} + {r <> r'}.
Proof.
  pose proof str_eq_dec. pose proof Z.eq_dec.
  assert (forall o o' : option str, {o = o'} + {o <> o'})
    by decide equality.
  assert (forall m m' : member, {m = m'} + {m <> m'})
    by decide equality.
  repeat decide equality.
Qed.

Lemma edit_profile_failure i req db :
  fst (edit_profile i req db) <> redirect (url_welcome i) ->
  snd (edit_profile i req db) = db.
Proof.
  destruct (is_post req) eqn:Hpost; [|now rewrite edit_profile_get].
  destruct (int64 i) eqn:H64; [|now rewrite edit_profile_overflow].
  destruct (in_dec Z.eq_dec i (iids db)) as [Hi|Hi];
    [|now rewrite edit_profile_no_user].
  rewrite edit_profile_post by assumption. cbv zeta.
  destruct (negb (truthy _) || negb (truthy _)); [reflexivity|].
  destruct (existsb _ (rows db)); [reflexivity|]. simpl. congruence.
Qed.

(** The id of a successful edit was bound, so it is a 64-bit integer. *)
Lemma edit_profile_success_int64 i req db :
  fst (edit_profile i req db) = redirect (url_welcome i) -> int64 i = true.
Proof.
  destruct (int64 i) eqn:H64; [reflexivity|].
  rewrite edit_profile_overflow by assumption. discriminate.
Qed.

(** Every request leaves the table as it was, or appends the registered
    row, or updates the edited row, or deletes. *)
Lemma handle_outcome c db :
  snd (handle c db) = db \/
  (exists u e p ph b, snd (handle c db) = registered db u e p ph b) \/
  (exists i e p ph b, snd (handle c db) = edited db i e p ph b) \/
  (exists i, snd (handle c db) = deleted db i).
Proof.
  destruct c as [|req|req|req|i|i req|i]; simpl; auto.
  - destruct (response_eq_dec (fst (register req db)) (redirect url_login))
      as [H|H].
    + apply register_success in H. destruct H as [_ H]. right. left.
      eauto 6.
    + left. now apply register_failure.
  - left. apply login_keeps.
  - left. apply welcome_keeps.
  - destruct (response_eq_dec (fst (edit_profile i req db))
                (redirect (url_welcome i))) as [H|H].
    + apply edit_profile_success in H. destruct H as (_ & _ & H).
      right. right. left. eauto 6.
    + left. now apply edit_profile_failure.
  - destruct (int64 i) eqn:H64.
    + rewrite delete_user_eq by assumption. right. right. right.
      now exists i.
    + left. now rewrite delete_user_overflow.
Qed.

(** A row of the table after a request carries the id and the username of
    a row before it, or the id AUTOINCREMENT had not yet handed out. *)
Lemma handle_descends c db m' :
  In m' (rows (snd (handle c db))) ->
  (exists m, In m (rows db) /\ iid m' = iid m /\ username m' = username m)
  \/ iid m' = next_iid db.
Proof.
  destruct (handle_outcome c db)
    as [->|[(u & e & p & ph & b & ->)|[(i & e & p & ph & b & ->)|(i & ->)]]];
    simpl; intros Hin.
  - left. now exists m'.
  - apply in_app_iff in Hin. destruct Hin as [Hin|[<-|[]]].
    + left. now exists m'.
    + right. reflexivity.
  - apply in_map_iff in Hin. destruct Hin as (m & <- & Hm). left.
    exists m. split; [assumption|]. split;
      [apply upd_iid | apply upd_username].
  - apply filter_In in Hin. left. exists m'. tauto.
Qed.

Lemma absent_field req key : absent req key -> field req key = [].
Proof.
  unfold absent, field. intros H.
  assert (Hg : get (form req) key [] = []).
  { induction (form req) as [|[k v] d IH]; simpl; [reflexivity|].
    destruct (String.eqb k key) eqn:E.
    - apply String.eqb_eq in E. subst k. exfalso. apply (H v). now left.
    - apply IH. intros v' Hv'. apply (H v'). now right. }
  rewrite Hg. reflexivity.
Qed.

(** Each of the four outcomes keeps the text columns text and the two
    optional columns filled. *)
Lemma handle_row_types c db :
  (forall m, In m (rows db) ->
             row_types m = [int; str_; str_; str_; str_; str_]) ->
  forall m, In m (rows (snd (handle c db))) ->
            row_types m = [int; str_; str_; str_; str_; str_].
Proof.
  intros Hdb m.
  destruct (handle_outcome c db)
    as [->|[(u & e & p & ph & b & ->)|[(i & e & p & ph & b & ->)|(i & ->)]]];
    simpl; intros Hin.
  - now apply Hdb.
  - apply in_app_iff in Hin. destruct Hin as [Hin|[<-|[]]];
      [now apply Hdb | reflexivity].
  - apply in_map_iff in Hin. destruct Hin as (m0 & <- & Hm).
    unfold set_where. destruct (has_iid i m0); [reflexivity|now apply Hdb].
  - apply filter_In in Hin. apply Hdb. tauto.
Qed.

Lemma run_row_types cs : forall db,
  (forall m, In m (rows db) ->
             row_types m = [int; str_; str_; str_; str_; str_]) ->
  forall m, In m (rows (run cs db)) ->
            row_types m = [int; str_; str_; str_; str_; str_].
Proof.
  unfold run. induction cs as [|c cs IH]; simpl; intros db Hdb.
  - assumption.
  - apply IH. now apply handle_row_types.
Qed.

End Outcomes.

(** ** Username and id after registration *)

Section Identities.

Lemma identities_edited db i e p ph b :
  identities (edited db i e p ph b) = identities db.
Proof.
  unfold identities, edited. simpl. rewrite map_map. apply map_ext.
  intros m. unfold identity. now rewrite upd_iid, upd_username.
Qed.

Lemma identities_deleted db i :
  identities (deleted db i) =
    filter (fun x => negb (fst x =? i)%Z) (identities db).
Proof.
  unfold identities, deleted. simpl.
  induction (rows db) as [|m l IH]; simpl; [reflexivity|].
  unfold has_iid at 1. destruct (iid m =? i)%Z; simpl; now rewrite IH.
Qed.

End Identities.

(** C9.  Whatever the request, the ids and usernames of the table, row by
    row, are afterwards what they were, or what they were followed by the
    newly registered username under an id no row had, or what they were
    without the pairs of the deleted id: no request alters the id or the
    username of a row it leaves in the table.  Hence a row still in the
    table under the id of a row before the request has that row's username.
    A successful edit_profile replaces the table by its image under
    [set_where]: the addressed row gets the submitted email, password, phone
    and birthdate and keeps its id and username, every other row is kept
    whole, so the ids and the usernames of the table are what they were. *)
Theorem username_and_iid_fixed (db : store) :
  (forall c,
     let db' := snd (handle c db) in
     identities db' = identities db \/
     (exists req, c = Register req /\ ~ In (next_iid db) (iids db) /\
        identities db' =
          identities db ++ [(next_iid db, field req "username")]) \/
     (exists i, c = DeleteUser i /\
        identities db' =
          filter (fun x => negb (fst x =? i)%Z) (identities db))) /\
  (forall c m m', NoDup (iids db) -> In m (rows db) ->
     In m' (rows (snd (handle c db))) -> iid m' = iid m ->
     username m' = username m) /\
  (forall i req,
     let e := field req "email" in
     let p := field req "password" in
     let ph := field req "phone" in
     let b := field req "birthdate" in
     let db' := snd (edit_profile i req db) in
     fst (edit_profile i req db) = redirect (url_welcome i) ->
     rows db' = map (set_where i e p ph b) (rows db) /\
     (forall m, iid m = i ->
        set_where i e p ph b m =
          {| iid := iid m; username := username m; email := e;
             password := p; phone := Some ph; birthdate := Some b |}) /\
     (forall m, iid m <> i -> set_where i e p ph b m = m) /\
     iids db' = iids db /\ usernames db' = usernames db).
Proof.
  split; [|split].
  - intros c db'. unfold db'.
    destruct c as [|req|req|req|i|i req|i]; simpl; auto.
    + destruct (response_eq_dec (fst (register req db)) (redirect url_login))
        as [H|H].
      * apply register_success in H. destruct H as [_ ->]. right. left.
        exists req. split; [reflexivity|]. split; [apply next_iid_fresh|].
        unfold identities, registered. simpl. now rewrite map_app.
      * left. now rewrite register_failure.
    + left. now rewrite login_keeps.
    + left. now rewrite welcome_keeps.
    + left. destruct (response_eq_dec (fst (edit_profile i req db))
                        (redirect (url_welcome i))) as [H|H].
      * apply edit_profile_success in H. destruct H as (_ & _ & ->).
        apply identities_edited.
      * now rewrite edit_profile_failure.
    + destruct (int64 i) eqn:H64.
      * right. right. exists i. split; [reflexivity|].
        rewrite delete_user_eq by assumption. apply identities_deleted.
      * left. now rewrite delete_user_overflow.
  - intros c m m' Hnd Hm Hm' Hid.
    destruct (handle_descends c db m' Hm') as [(m0 & Hm0 & Hi0 & Hu0)|Hnew].
    + rewrite Hu0. f_equal.
      apply (unique_column iid (rows db)); try assumption. congruence.
    + exfalso. apply (next_iid_fresh db). rewrite <- Hnew, Hid.
      unfold iids. now apply in_map.
  - intros i req e p ph b db' Hok.
    apply edit_profile_success in Hok. destruct Hok as (_ & _ & Hdb).
    unfold db'. rewrite Hdb. fold e p ph b.
    split; [reflexivity|]. split; [|split; [|split]].
    + intros m Hid. unfold set_where. apply has_iid_iff in Hid.
      now rewrite Hid.
    + intros m. apply upd_other.
    + apply edited_iids.
    + apply edited_usernames.
Qed.

Lemma username_and_iid_fixed_witness :
  identities (snd (handle (DeleteUser 1) db_alice_bob)) =
    [(2%Z, lit "bob")] /\
  usernames (snd (edit_profile 2 edit_keep_email db_alice_bob)) =
    [lit "alice"; lit "bob"] /\
  username
    (set_profile (lit "b@x.com") (lit "q2") [] []
       (new_member db_alice (lit "bob") (lit "b@x.com") (lit "p2")
          (lit "0912") (lit "2000-01-01"))) = lit "bob".
Proof.
  destruct (username_and_iid_fixed db_alice_bob) as (Hall & Hany & Hedit).
  split; [|split].
  - destruct (Hall (DeleteUser 1)) as [H|[(req & H & _)|(i & Hc & H)]].
    + discriminate H.
    + discriminate H.
    + injection Hc as <-. rewrite H. reflexivity.
  - destruct (Hedit 2%Z edit_keep_email eq_refl) as (_ & _ & _ & _ & Hu).
    rewrite Hu. reflexivity.
  - apply (Hany (EditProfile 2 edit_keep_email)
             (new_member db_alice (lit "bob") (lit "b@x.com") (lit "p2")
                (lit "0912") (lit "2000-01-01"))).
    + repeat constructor; simpl; intuition discriminate.
    + simpl. tauto.
    + simpl. tauto.
    + reflexivity.
Defined.

(** ** The optional fields *)

(** C10, as stated, fails in its last part: the one row of the table after
    alice registered does not have six strings, its id is an integer. *)
Lemma stored_iid_is_not_str :
  ~ (forall m, In m (rows db_alice) -> all_str m).
Proof.
  intros H.
  specialize (H (new_member Db.empty (lit "alice") (lit "a@x.com")
                   (lit "p1") [] []) (or_introl eq_refl)).
  inversion H as [|v l Hiid _]. discriminate Hiid.
Qed.

(** C10, amended.  A registration that succeeds appends a row, and a profile
    edit that succeeds leaves the addressed row, whose phone and birthdate
    are the stripped submitted values, the empty string when the field was
    not sent, never NULL.  Every row of a table reached from the empty one
    has all six columns present: the id as an integer, the other five as
    strings. *)
Theorem optional_fields_default :
  (forall req db,
     fst (register req db) = redirect url_login ->
     exists m, rows (snd (register req db)) = rows db ++ [m] /\
       phone m = Some (field req "phone") /\
       birthdate m = Some (field req "birthdate") /\
       (absent req "phone" -> phone m = Some []) /\
       (absent req "birthdate" -> birthdate m = Some [])) /\
  (forall i req db m,
     fst (edit_profile i req db) = redirect (url_welcome i) ->
     In m (rows (snd (edit_profile i req db))) -> iid m = i ->
     phone m = Some (field req "phone") /\
     birthdate m = Some (field req "birthdate") /\
     (absent req "phone" -> phone m = Some []) /\
     (absent req "birthdate" -> birthdate m = Some [])) /\
  (forall cs m, In m (rows (run cs Db.empty)) ->
     row_types m = [int; str_; str_; str_; str_; str_]).
Proof.
  split; [|split].
  - intros req db Hok. apply register_success in Hok.
    destruct Hok as [_ ->]. eexists. split; [reflexivity|]. simpl.
    split; [reflexivity|]. split; [reflexivity|].
    split; intros H; now rewrite (absent_field H).
  - intros i req db m Hok Hin Hid. apply edit_profile_success in Hok.
    destruct Hok as (_ & _ & Hdb). rewrite Hdb in Hin. simpl in Hin.
    apply in_map_iff in Hin. destruct Hin as (m0 & <- & _).
    rewrite upd_iid in Hid. apply has_iid_iff in Hid.
    unfold set_where. rewrite Hid. simpl.
    split; [reflexivity|]. split; [reflexivity|].
    split; intros H; now rewrite (absent_field H).
  - intros cs. apply run_row_types. intros m [].
Qed.

Lemma optional_fields_default_witness :
  (exists m, rows (snd (register alice Db.empty)) = [m] /\
             phone m = Some [] /\ birthdate m = Some []) /\
  (forall m, In m (rows (snd (edit_profile 2 edit_keep_email db_alice_bob))) ->
             iid m = 2%Z -> phone m = Some [] /\ birthdate m = Some []).
Proof.
  destruct optional_fields_default as (Hreg & Hedit & _). split.
  - destruct (Hreg alice Db.empty eq_refl) as (m & Hrows & _ & _ & Hp & Hb).
    exists m. split; [exact Hrows|]. split; [apply Hp | apply Hb];
      intros v [H|[H|[H|[]]]]; discriminate H.
  - intros m Hin Hid.
    destruct (Hedit 2%Z edit_keep_email db_alice_bob m eq_refl Hin Hid)
      as (_ & _ & Hp & Hb).
    split; [apply Hp | apply Hb]; intros v [H|[H|[]]]; discriminate H.
Defined.

(** * Further properties of the handlers *)

(** ** Exceptions, errors and writes *)

Section Responses.

(** The INSERT raises nothing but the IntegrityError that [register]
    catches. *)
Lemma register_never_raises req db e : fst (register req db) <> uncaught e.
Proof.
  destruct (is_post req) eqn:Hpost;
    [|rewrite register_get by assumption; discriminate].
  rewrite register_post by assumption. cbv zeta.
  destruct (negb (truthy _) || negb (truthy _) || negb (truthy _));
    [discriminate|].
  destruct (existsb (has_username _) _); [discriminate|].
  destruct (existsb (has_email _) _); discriminate.
Qed.

Lemma login_never_raises req db e : fst (login req db) <> uncaught e.
Proof.
  unfold login. destruct (is_post req); [|discriminate]. cbv zeta.
  destruct (negb (truthy _) || negb (truthy _)); [discriminate|].
  destruct (select_by_credentials _ _ _); discriminate.
Qed.

(** With an id that can be bound, the three routes by id answer. *)
Lemma welcome_answers i db e :
  int64 i = true -> fst (welcome i db) <> uncaught e.
Proof.
  intros H64. unfold welcome, select_by_iid. rewrite H64. cbv zeta.
  destruct (find _ _); discriminate.
Qed.

Lemma edit_profile_answers i req db e :
  int64 i = true -> fst (edit_profile i req db) <> uncaught e.
Proof.
  intros H64. destruct (is_post req) eqn:Hpost.
  - destruct (in_dec Z.eq_dec i (iids db)) as [Hi|Hi];
      [|rewrite edit_profile_no_user by assumption; discriminate].
    rewrite edit_profile_post by assumption. cbv zeta.
    destruct (negb (truthy _) || negb (truthy _)); [discriminate|].
    destruct (existsb _ (rows db)); discriminate.
  - unfold edit_profile, select_by_iid, get_db_connection.
    simpl. rewrite H64. destruct (find (has_iid i) (rows db)); [|discriminate].
    rewrite Hpost. discriminate.
Qed.

(** With a primary key, the query by id returns the row of that id. *)
Lemma find_by_iid (l : list member) (m : member) :
  NoDup (map iid l) -> In m l -> find (has_iid (iid m)) l = Some m.
Proof.
  intros Hnd Hm.
  assert (Hex : existsb (has_iid (iid m)) l = true).
  { apply iid_stored. now apply in_map. }
  apply find_is_some in Hex. destruct Hex as [a Ha]. rewrite Ha.
  apply find_some in Ha. destruct Ha as [Hin Hid].
  apply has_iid_iff in Hid. f_equal.
  now apply (unique_column iid l).
Qed.

Lemma find_by_iid_none (l : list member) (i : Z) :
  ~ In i (map iid l) -> find (has_iid i) l = None.
Proof.
  intros Hi. apply find_existsb. destruct (existsb _ _) eqn:E;
    [|reflexivity].
  apply iid_stored in E. contradiction.
Qed.

End Responses.

(** X1.  A request ends in an uncaught exception exactly when it goes to
    /welcome/<id>, /edit_profile/<id> or /delete/<id> with an id that is no
    64-bit integer; the exception is then OverflowError and the database is
    unchanged.  No IntegrityError escapes: [register] catches the one of its
    INSERT, and in [edit_profile] the query for the email of another row
    answers before the UPDATE could raise one. *)
Theorem only_overflow_escapes (c : call) (db : store) :
  (forall e, fst (handle c db) = uncaught e ->
     e = OverflowError /\ snd (handle c db) = db /\
     exists i, int64 i = false /\
       (c = Welcome i \/ (exists req, c = EditProfile i req) \/
        c = DeleteUser i)) /\
  (forall i, int64 i = false ->
     c = Welcome i \/ (exists req, c = EditProfile i req) \/
     c = DeleteUser i ->
     handle c db = (uncaught OverflowError, db)).
Proof.
  split.
  - intros e. destruct c as [|req|req|req|i|i req|i]; simpl;
      try discriminate.
    + intros H. now apply register_never_raises in H.
    + intros H. now apply login_never_raises in H.
    + destruct (int64 i) eqn:H64;
        [intros H; now apply welcome_answers in H|].
      rewrite welcome_overflow by assumption. simpl. intros H.
      injection H as <-. repeat split. exists i. auto.
    + destruct (int64 i) eqn:H64;
        [intros H; now apply edit_profile_answers in H|].
      rewrite edit_profile_overflow by assumption. simpl. intros H.
      injection H as <-. repeat split. exists i. eauto.
    + destruct (int64 i) eqn:H64;
        [rewrite delete_user_eq by assumption; discriminate|].
      rewrite delete_user_overflow by assumption. simpl. intros H.
      injection H as <-. repeat split. exists i. auto.
  - intros i H64 [->|[[req ->]| ->]]; simpl.
    + now apply welcome_overflow.
    + now apply edit_profile_overflow.
    + now apply delete_user_overflow.
Qed.

Lemma only_overflow_escapes_witness :
  handle (EditProfile huge_id edit_keep_email) db_alice_bob =
    (uncaught OverflowError, db_alice_bob) /\
  (exists i, int64 i = false /\
     (Welcome huge_id = Welcome i \/
      (exists req, Welcome huge_id = EditProfile i req) \/
      Welcome huge_id = DeleteUser i)).
Proof.
  split.
  - apply (proj2 (only_overflow_escapes
                    (EditProfile huge_id edit_keep_email) db_alice_bob)
             huge_id eq_refl).
    right. left. now exists edit_keep_email.
  - destruct (proj1 (only_overflow_escapes (Welcome huge_id) db_alice_bob)
                OverflowError eq_refl) as (_ & _ & H).
    exact H.
Defined.

(** X2.  A request answered with an error, be it the redirect to /error or
    the error template, leaves the database exactly as it was. *)
Theorem errors_leave_database (c : call) (db : store) :
  is_error (fst (handle c db)) = true -> snd (handle c db) = db.
Proof.
  destruct c as [|req|req|req|i|i req|i]; simpl; try reflexivity.
  - intros H. apply register_failure. intros E. rewrite E in H.
    discriminate H.
  - intros _. apply login_keeps.
  - intros _. apply welcome_keeps.
  - intros H. apply edit_profile_failure. intros E. rewrite E in H.
    discriminate H.
  - destruct (int64 i) eqn:H64.
    + rewrite delete_user_eq by assumption. discriminate.
    + now rewrite delete_user_overflow.
Qed.

Lemma errors_leave_database_witness :
  snd (handle (Register carol) (run [Register bob] Db.empty)) =
    run [Register bob] Db.empty.
Proof. apply errors_leave_database. reflexivity. Defined.

(** X3.  The database changes only under a POST to /register, a POST to
    /edit_profile/<id>, or a request to /delete/<id>; every GET of a form,
    every login, welcome, index and error request leaves it as it was. *)
Theorem only_writes_change (c : call) (db : store) :
  snd (handle c db) <> db -> writes c = true.
Proof.
  destruct c as [|req|req|req|i|i req|i]; simpl; intros H;
    try reflexivity; try (exfalso; now apply H).
  - destruct (is_post req) eqn:Hpost; [reflexivity|]. exfalso. apply H.
    now rewrite register_get.
  - exfalso. apply H. apply login_keeps.
  - exfalso. apply H. apply welcome_keeps.
  - destruct (is_post req) eqn:Hpost; [reflexivity|]. exfalso. apply H.
    now apply edit_profile_get.
Qed.

Lemma only_writes_change_witness : writes (Register alice) = true.
Proof.
  apply (@only_writes_change (Register alice) Db.empty). discriminate.
Defined.

(** ** Looking a member up *)

(** X4.  For an id that is no 64-bit integer, /welcome/<id> and
    /edit_profile/<id> end in OverflowError.  For a 64-bit id no row has,
    both (whatever the method and the form) render the user-does-not-exist
    error.  For the 64-bit id of a stored row, /welcome/<id> renders the
    welcome view with that row's username, and a request to
    /edit_profile/<id> that is not a POST renders the form with that row.
    In every case the database is unchanged. *)
Theorem lookup_by_id (i : Z) (db : store) :
  (int64 i = false ->
   welcome i db = (uncaught OverflowError, db) /\
   forall req, edit_profile i req db = (uncaught OverflowError, db)) /\
  (int64 i = true -> ~ In i (iids db) ->
   welcome i db = (render_template (error_html msg_no_user), db) /\
   forall req,
     edit_profile i req db = (render_template (error_html msg_no_user), db))
  /\
  (forall m, int64 i = true -> NoDup (iids db) -> In m (rows db) ->
   iid m = i ->
   welcome i db = (render_template (welcome_html (username m) i), db) /\
   forall req, is_post req = false ->
     edit_profile i req db = (render_template (edit_profile_html m), db)).
Proof.
  split; [|split].
  - intros H64. split.
    + now apply welcome_overflow.
    + intros req. now apply edit_profile_overflow.
  - intros H64 Hi. split.
    + unfold welcome, select_by_iid, get_db_connection. simpl.
      now rewrite H64, find_by_iid_none.
    + intros req. now apply edit_profile_no_user.
  - intros m H64 Hnd Hm <-. split.
    + unfold welcome, select_by_iid, get_db_connection. simpl.
      rewrite H64. now rewrite find_by_iid.
    + intros req Hget.
      unfold edit_profile, select_by_iid, get_db_connection. simpl.
      rewrite H64. rewrite find_by_iid by assumption. now rewrite Hget.
Qed.

Lemma lookup_by_id_witness :
  welcome huge_id db_alice_bob = (uncaught OverflowError, db_alice_bob) /\
  welcome 7 db_alice_bob =
    (render_template (error_html msg_no_user), db_alice_bob) /\
  welcome 2 db_alice_bob =
    (render_template (welcome_html (lit "bob") 2), db_alice_bob).
Proof.
  split; [|split].
  - destruct (lookup_by_id huge_id db_alice_bob) as (H & _).
    apply H. reflexivity.
  - destruct (lookup_by_id 7 db_alice_bob) as (_ & H & _).
    apply H; [reflexivity|]. simpl. intuition discriminate.
  - destruct (lookup_by_id 2 db_alice_bob) as (_ & _ & H).
    apply (H (new_member db_alice (lit "bob") (lit "b@x.com") (lit "p2")
                (lit "0912") (lit "2000-01-01"))).
    + reflexivity.
    + repeat constructor; simpl; intuition discriminate.
    + simpl. tauto.
    + reflexivity.
Defined.

(** ** Logging in *)

Section Credentials.

Lemma passed_guard (e p : str) :
  negb (truthy e) || negb (truthy p) = false -> e <> [] /\ p <> [].
Proof.
  intros H. apply orb_false_iff in H. destruct H as [He Hp].
  apply negb_false_iff in He, Hp. now rewrite <- !truthy_true.
Qed.

(** What a welcome page out of [login] tells about the request and the
    table. *)
Lemma login_success req db u i :
  fst (login req db) = render_template (welcome_html u i) ->
  is_post req = true /\
  field req "email" <> [] /\ field req "password" <> [] /\
  exists m, In m (rows db) /\ email m = field req "email" /\
            password m = field req "password" /\
            username m = u /\ iid m = i.
Proof.
  destruct (is_post req) eqn:Hpost; [|unfold login; now rewrite Hpost].
  rewrite login_post by assumption. cbv zeta.
  destruct (negb (truthy _) || negb (truthy _)) eqn:G; [discriminate|].
  apply passed_guard in G. destruct G as [He Hp].
  destruct (find _ (rows db)) as [m|] eqn:F; [|discriminate].
  simpl. intros E. injection E as <- <-.
  apply find_some in F. destruct F as [Hm Hc].
  apply andb_true_iff in Hc. destruct Hc as [Hem Hpw].
  apply has_email_iff in Hem. apply has_password_iff in Hpw.
  repeat split; try assumption. now exists m.
Qed.

(** With emails unique, the query by credentials returns the row that
    holds them. *)
Lemma find_by_credentials (l : list member) (m : member) :
  NoDup (map email l) -> In m l ->
  find (fun r => has_email (email m) r && has_password (password m) r) l =
    Some m.
Proof.
  intros Hnd Hm.
  destruct (find _ l) as [a|] eqn:F.
  - apply find_some in F. destruct F as [Ha Hc].
    apply andb_true_iff, proj1, has_email_iff in Hc. f_equal.
    now apply (unique_column email l).
  - exfalso. eapply find_none in F; [|exact Hm].
    apply andb_false_iff in F.
    destruct F as [F|F]; [assert (E := proj2 (has_email_iff (email m) m))
                         | assert (E := proj2 (has_password_iff
                                                 (password m) m))];
      rewrite E in F by reflexivity; discriminate F.
Qed.

End Credentials.

(** X5.  [login] renders the welcome view exactly for stored credentials.
    When it renders it, the request is a POST with non-empty stripped email
    and password and a stored row holds both, and the view shows that row's
    username and id.  Conversely, with emails unique, a POST carrying the
    non-empty email and password of a stored row renders the welcome view of
    that row. *)
Theorem login_welcomes_stored_credentials (req : request) (db : store) :
  (forall u i,
     fst (login req db) = render_template (welcome_html u i) ->
     is_post req = true /\
     field req "email" <> [] /\ field req "password" <> [] /\
     exists m, In m (rows db) /\ email m = field req "email" /\
               password m = field req "password" /\
               username m = u /\ iid m = i) /\
  (forall m, NoDup (emails db) -> In m (rows db) -> is_post req = true ->
     field req "email" = email m -> field req "password" = password m ->
     email m <> [] -> password m <> [] ->
     login req db =
       (render_template (welcome_html (username m) (iid m)), db)).
Proof.
  split.
  - intros u i. apply login_success.
  - intros m Hnd Hm Hpost He Hp Hne Hnp.
    rewrite login_post by assumption. cbv zeta. rewrite He, Hp.
    rewrite nonempty_pass2 by assumption.
    now rewrite find_by_credentials.
Qed.

Lemma login_welcomes_stored_credentials_witness :
  login login_alice_padded db_alice_bob =
    (render_template (welcome_html (lit "alice") 1), db_alice_bob) /\
  (exists m, In m (rows db_alice_bob) /\ password m = lit "p2" /\
             username m = lit "bob").
Proof.
  split.
  - apply (proj2 (login_welcomes_stored_credentials login_alice_padded
                    db_alice_bob)
             (new_member Db.empty (lit "alice") (lit "a@x.com") (lit "p1")
                [] []));
      try reflexivity; try discriminate.
    + repeat constructor; simpl; intuition discriminate.
    + simpl. tauto.
  - destruct (proj1 (login_welcomes_stored_credentials login_bob
                       db_alice_bob) (lit "bob") 2%Z eq_refl)
      as (_ & _ & _ & m & Hm & _ & Hp & Hu & _).
    exists m. repeat split; assumption.
Defined.

(** X6.  The page [login] renders is the page of /welcome/<id> for the id it
    shows: with ids unique, whenever a login renders the welcome view for
    some username and id (a 64-bit integer, as every stored id is), the
    welcome route renders the same view for that id. *)
Theorem login_agrees_with_welcome (req : request) (db : store) (u : str)
        (i : Z) :
  NoDup (iids db) -> int64 i = true ->
  fst (login req db) = render_template (welcome_html u i) ->
  welcome i db = (render_template (welcome_html u i), db).
Proof.
  intros Hnd H64 Hok. apply login_success in Hok.
  destruct Hok as (_ & _ & _ & m & Hm & _ & _ & <- & <-).
  unfold welcome, select_by_iid, get_db_connection. simpl.
  rewrite H64. now rewrite find_by_iid.
Qed.

Lemma login_agrees_with_welcome_witness :
  welcome 2 db_alice_bob =
    (render_template (welcome_html (lit "bob") 2), db_alice_bob).
Proof.
  apply (@login_agrees_with_welcome login_bob);
    [|reflexivity|reflexivity].
  repeat constructor; simpl; intuition discriminate.
Defined.

(** ** After an edit *)

Section Edited.

Lemma edit_profile_success_free i req db :
  fst (edit_profile i req db) = redirect (url_welcome i) ->
  field req "email" <> [] /\ field req "password" <> [] /\
  forall m, In m (rows db) -> email m = field req "email" -> iid m = i.
Proof.
  intros Hok. destruct (@edit_profile_success _ _ _ Hok) as (Hpost & Hi & _).
  assert (H64 := @edit_profile_success_int64 _ _ _ Hok).
  revert Hok. rewrite edit_profile_post by assumption. cbv zeta.
  destruct (negb (truthy _) || negb (truthy _)) eqn:G; [discriminate|].
  apply passed_guard in G. destruct G as [He Hp].
  destruct (existsb _ (rows db)) eqn:Ho; [discriminate|]. intros _.
  split; [assumption|]. split; [assumption|]. intros m Hm Hem.
  destruct (Z.eq_dec (iid m) i) as [|Hne]; [assumption|]. exfalso.
  assert (H : existsb
    (fun r => has_email (field req "email") r && negb (has_iid i r))
    (rows db) = true) by (apply email_of_other; now exists m).
  congruence.
Qed.

Lemma set_where_twice i e p ph b m :
  set_where i e p ph b (set_where i e p ph b m) = set_where i e p ph b m.
Proof.
  unfold set_where. destruct (has_iid i m) eqn:E; [|now rewrite E].
  unfold has_iid in *. simpl. now rewrite E.
Qed.

(** After the UPDATE of row [i] to an email no other row held, no other row
    holds it either. *)
Lemma edited_free db i e p ph b :
  (forall m, In m (rows db) -> email m = e -> iid m = i) ->
  forall m, In m (rows (edited db i e p ph b)) -> email m = e -> iid m = i.
Proof.
  intros Hfree m' Hin He. simpl in Hin. apply in_map_iff in Hin.
  destruct Hin as (m & <- & Hm). rewrite upd_iid.
  rewrite upd_email in He. destruct (has_iid i m) eqn:E.
  - now apply has_iid_iff.
  - now apply Hfree.
Qed.

End Edited.

(** X7.  After a successful edit of the row with id [i], the redirect target
    /welcome/i renders the welcome view with the row's unchanged username,
    and a login with the submitted email and password renders that same
    view. *)
Theorem edit_then_welcome_and_login (i : Z) (req req' : request)
        (db : store) (m : member) :
  let db' := snd (edit_profile i req db) in
  NoDup (iids db) -> In m (rows db) -> iid m = i ->
  fst (edit_profile i req db) = redirect (url_welcome i) ->
  is_post req' = true ->
  field req' "email" = field req "email" ->
  field req' "password" = field req "password" ->
  welcome i db' = (render_template (welcome_html (username m) i), db') /\
  login req' db' = (render_template (welcome_html (username m) i), db').
Proof.
  intros db' Hnd Hm Hid Hok Hpost' He' Hp'.
  assert (H64 := @edit_profile_success_int64 _ _ _ Hok).
  destruct (@edit_profile_success_free _ _ _ Hok) as (He & Hp & Hfree).
  destruct (@edit_profile_success _ _ _ Hok) as (_ & _ & Hdb).
  unfold db'. rewrite Hdb.
  set (e := field req "email") in *. set (p := field req "password") in *.
  set (ph := field req "phone"). set (b := field req "birthdate").
  assert (Hin : In (set_where i e p ph b m) (rows (edited db i e p ph b)))
    by (simpl; now apply in_map).
  assert (Hrow : set_where i e p ph b m = set_profile e p ph b m).
  { unfold set_where. apply has_iid_iff in Hid. now rewrite Hid. }
  assert (Hnd' : NoDup (map iid (rows (edited db i e p ph b))))
    by (fold (iids (edited db i e p ph b)); now rewrite edited_iids).
  split.
  - unfold welcome, select_by_iid, get_db_connection. cbv zeta.
    cbn [view close disk]. rewrite H64. rewrite <- Hid at 1.
    rewrite <- (upd_iid i e p ph b m).
    rewrite find_by_iid by assumption.
    now rewrite upd_username, upd_iid, Hid.
  - rewrite login_post by assumption. cbv zeta. rewrite He', Hp'.
    rewrite nonempty_pass2 by assumption.
    assert (F : find (fun r => has_email e r && has_password p r)
                  (rows (edited db i e p ph b)) =
                Some (set_where i e p ph b m)).
    { destruct (find _ _) as [a|] eqn:F.
      - apply find_some in F. destruct F as [Ha Hc].
        apply andb_true_iff, proj1, has_email_iff in Hc. f_equal.
        apply (unique_column iid (rows (edited db i e p ph b)));
          try assumption.
        rewrite upd_iid, Hid. now apply (@edited_free db i e p ph b Hfree).
      - exfalso. eapply find_none in F; [|exact Hin].
        rewrite Hrow in F. unfold has_email, has_password in F. simpl in F.
        destruct (str_eq_dec e e); [|congruence].
        destruct (str_eq_dec p p); [discriminate|congruence]. }
    rewrite F. now rewrite upd_username, upd_iid, Hid.
Qed.

Lemma edit_then_welcome_and_login_witness :
  let db' := snd (edit_profile 2 edit_keep_email db_alice_bob) in
  welcome 2 db' = (render_template (welcome_html (lit "bob") 2), db') /\
  login login_bob_new db' =
    (render_template (welcome_html (lit "bob") 2), db').
Proof.
  apply (@edit_then_welcome_and_login 2 edit_keep_email login_bob_new
           db_alice_bob
           (new_member db_alice (lit "bob") (lit "b@x.com") (lit "p2")
              (lit "0912") (lit "2000-01-01")));
    try reflexivity.
  - repeat constructor; simpl; intuition discriminate.
  - simpl. tauto.
Defined.

(** X8.  Sending the same successful edit again succeeds again and changes
    nothing further. *)
Theorem edit_profile_twice (i : Z) (req : request) (db : store) :
  fst (edit_profile i req db) = redirect (url_welcome i) ->
  edit_profile i req (snd (edit_profile i req db)) = edit_profile i req db.
Proof.
  intros Hok.
  assert (H64 := @edit_profile_success_int64 _ _ _ Hok).
  destruct (@edit_profile_success_free _ _ _ Hok) as (He & Hp & Hfree).
  destruct (@edit_profile_success _ _ _ Hok) as (Hpost & Hi & Hdb).
  rewrite (surjective_pairing (edit_profile i req db)) at 2.
  rewrite Hok, Hdb.
  set (e := field req "email") in *. set (p := field req "password") in *.
  set (ph := field req "phone"). set (b := field req "birthdate").
  rewrite edit_profile_post;
    [|assumption | now rewrite edited_iids | assumption].
  cbv zeta. fold e p ph b. rewrite nonempty_pass2 by assumption.
  assert (Hno : existsb (fun r => has_email e r && negb (has_iid i r))
                  (rows (edited db i e p ph b)) = false).
  { apply not_stored. intros r Hr.
    destruct (has_email e r) eqn:E; [|reflexivity].
    apply has_email_iff in E.
    apply (@edited_free db i e p ph b Hfree) in E; [|assumption].
    apply has_iid_iff in E. now rewrite E. }
  rewrite Hno. f_equal. unfold edited. simpl. f_equal.
  rewrite map_map. apply map_ext. intros r. apply set_where_twice.
Qed.

Lemma edit_profile_twice_witness :
  edit_profile 2 edit_keep_email
    (snd (edit_profile 2 edit_keep_email db_alice_bob)) =
  edit_profile 2 edit_keep_email db_alice_bob.
Proof. apply edit_profile_twice. reflexivity. Defined.

(** ** After a delete *)

(** X9.  Once /delete/<id> was served for a 64-bit id, the id is gone for
    every route: /welcome/<id> and /edit_profile/<id> render the
    user-does-not-exist error, and with emails unique a POST to /login under
    the email of the deleted row is answered with an error whatever the
    password. *)
Theorem deleted_member_gone (i : Z) (db : store) :
  let db' := snd (delete_user i db) in
  int64 i = true ->
  welcome i db' = (render_template (error_html msg_no_user), db') /\
  (forall req,
     edit_profile i req db' =
       (render_template (error_html msg_no_user), db')) /\
  (forall m req, NoDup (emails db) -> In m (rows db) -> iid m = i ->
     is_post req = true -> field req "email" = email m ->
     is_error (fst (login req db')) = true /\ snd (login req db') = db').
Proof.
  intros db' H64. unfold db'. rewrite delete_user_eq by assumption. simpl.
  assert (Hgone : ~ In i (iids (deleted db i))).
  { unfold iids, deleted. simpl. rewrite in_map_iff.
    intros (r & Hid & Hr). apply filter_In in Hr. destruct Hr as [_ Hr].
    apply negb_true_iff, has_iid_false in Hr. contradiction. }
  split; [|split].
  - unfold welcome, select_by_iid, get_db_connection. simpl.
    rewrite H64. now rewrite find_by_iid_none.
  - intros req. now apply edit_profile_no_user.
  - intros m req Hnd Hm Hid Hpost He. split; [|apply login_keeps].
    rewrite login_post by assumption. cbv zeta.
    destruct (negb (truthy _) || negb (truthy _)); [reflexivity|].
    assert (Hno : ~ In (field req "email") (map email (rows (deleted db i)))).
    { rewrite in_map_iff. intros (r & Hem & Hr). simpl in Hr.
      apply filter_In in Hr. destruct Hr as [Hr Hkeep].
      apply negb_true_iff, has_iid_false in Hkeep. apply Hkeep.
      rewrite <- Hid. f_equal.
      apply (unique_column email (rows db)); try assumption. congruence. }
    apply (@no_email_no_match _ (field req "password")) in Hno.
    apply find_existsb in Hno. now rewrite Hno.
Qed.

Lemma deleted_member_gone_witness :
  let db' := snd (delete_user 1 db_alice_bob) in
  is_error (fst (login alice db')) = true /\ snd (login alice db') = db'.
Proof.
  destruct (deleted_member_gone 1 db_alice_bob eq_refl) as (_ & _ & H).
  apply (H (new_member Db.empty (lit "alice") (lit "a@x.com") (lit "p1")
              [] []));
    try reflexivity.
  - repeat constructor; simpl; intuition discriminate.
  - simpl. tauto.
Defined.

(** X10.  Deleting the id a registration just assigned (a 64-bit integer)
    gives back the rows the table had before, but not the id: the counter
    stays at the deleted id, and the next registration gets the id after
    it. *)
Theorem register_then_delete (req : request) (db : store) :
  let db' := snd (delete_user (next_iid db) (snd (register req db))) in
  fst (register req db) = redirect url_login ->
  int64 (next_iid db) = true ->
  rows db' = rows db /\ seq db' = next_iid db /\
  next_iid db' = (next_iid db + 1)%Z.
Proof.
  intros db' Hok H64. apply register_success in Hok. destruct Hok as [_ Hdb].
  unfold db'. rewrite Hdb, delete_user_eq by assumption. simpl.
  assert (Hrows : filter (fun m => negb (has_iid (next_iid db) m))
                    (rows db ++
                     [new_member db (field req "username")
                        (field req "email") (field req "password")
                        (field req "phone") (field req "birthdate")]) =
                  rows db).
  { rewrite filter_app. simpl. unfold has_iid at 2. simpl.
    rewrite Z.eqb_refl. simpl. rewrite app_nil_r. apply delete_keeps.
    intros m Hm Heq. apply (next_iid_fresh db). rewrite <- Heq.
    unfold iids. now apply in_map. }
  split; [exact Hrows|]. split; [reflexivity|].
  unfold next_iid at 1. simpl. rewrite Hrows.
  unfold next_iid. lia.
Qed.

Lemma register_then_delete_witness :
  rows (snd (delete_user 2 (snd (register bob db_alice)))) = rows db_alice /\
  next_iid (snd (delete_user 2 (snd (register bob db_alice)))) = 3%Z.
Proof.
  destruct (@register_then_delete bob db_alice eq_refl eq_refl)
    as (H1 & _ & H2).
  split; [exact H1 | exact H2].
Defined.

(** ** Ids over a whole history *)

Section History.

Lemma max_iid_nonneg (l : list member) : (0 <= max_iid l)%Z.
Proof. unfold max_iid. induction l; simpl; lia. Qed.

Lemma handle_seq c db : (seq db <= seq (snd (handle c db)))%Z.
Proof.
  destruct (handle_outcome c db)
    as [->|[(u & e & p & ph & b & ->)|[(i & e & p & ph & b & ->)|(i & ->)]]];
    simpl; try lia.
  unfold next_iid. lia.
Qed.

Lemma handle_bounded c db : bounded db -> bounded (snd (handle c db)).
Proof.
  intros Hb.
  destruct (handle_outcome c db)
    as [->|[(u & e & p & ph & b & ->)|[(i & e & p & ph & b & ->)|(i & ->)]]];
    unfold bounded; simpl; intros m Hin.
  - now apply Hb.
  - pose proof (max_iid_nonneg (rows db)).
    apply in_app_iff in Hin. destruct Hin as [Hin|[<-|[]]].
    + apply Hb in Hin. unfold next_iid. lia.
    + simpl. unfold next_iid. lia.
  - apply in_map_iff in Hin. destruct Hin as (m0 & <- & Hm).
    rewrite upd_iid. now apply Hb.
  - apply filter_In in Hin. apply Hb. tauto.
Qed.

(** A row found after the request under an id the counter had passed
    before it descends from the row of that id. *)
Lemma handle_old_ids c db m' :
  In m' (rows (snd (handle c db))) -> (iid m' <= seq db)%Z ->
  exists m, In m (rows db) /\ iid m' = iid m /\ username m' = username m.
Proof.
  intros Hin Hle. destruct (handle_descends c db m' Hin) as [H|H];
    [assumption|].
  exfalso. unfold next_iid in H. lia.
Qed.

Lemma run_history cs : forall db,
  bounded db ->
  bounded (run cs db) /\ (seq db <= seq (run cs db))%Z /\
  forall m', In m' (rows (run cs db)) -> (iid m' <= seq db)%Z ->
    exists m, In m (rows db) /\ iid m' = iid m /\ username m' = username m.
Proof.
  unfold run. induction cs as [|c cs IH]; simpl; intros db Hb.
  - split; [assumption|]. split; [lia|]. intros m' Hm' _. now exists m'.
  - destruct (IH _ (handle_bounded c Hb)) as (Hb' & Hseq & Hold).
    pose proof (handle_seq c db) as Hstep.
    split; [assumption|]. split; [lia|]. intros m' Hm' Hle.
    destruct (Hold m' Hm') as (m1 & Hm1 & Hid1 & Hu1); [lia|].
    destruct (@handle_old_ids c db m1 Hm1) as (m & Hm & Hid & Hu); [lia|].
    exists m. split; [assumption|]. split; congruence.
Qed.

End History.

(** X11.  Over any history from the empty table, every stored id is positive
    and at most the counter, the counter never decreases, and an id never
    passes to another username: a row found under the id of an earlier row,
    after any number of further requests (deletes and new registrations
    among them), has that earlier row's username. *)
Theorem ids_never_reused (cs cs' : list call) :
  let db := run cs Db.empty in
  let db' := run cs' db in
  bounded db /\ (seq db <= seq db')%Z /\
  forall m m', In m (rows db) -> In m' (rows db') -> iid m' = iid m ->
               username m' = username m.
Proof.
  intros db db'.
  assert (Hb0 : bounded Db.empty) by (intros m []).
  destruct (run_history cs Hb0) as (Hb & _ & _). fold db in Hb.
  destruct (run_history cs' Hb) as (_ & Hseq & Hold). fold db' in Hseq, Hold.
  split; [assumption|]. split; [assumption|].
  intros m m' Hm Hm' Hid.
  destruct (Hold m' Hm') as (m0 & Hm0 & Hid0 & Hu0).
  { rewrite Hid. apply Hb. assumption. }
  rewrite Hu0. f_equal.
  apply (unique_column iid (rows db)); try assumption; [|congruence].
  apply (run_schema_ok cs empty_schema_ok).
Qed.

Lemma ids_never_reused_witness :
  (seq db_alice_bob <=
   seq (run [DeleteUser 1; Register alice; EditProfile 2 edit_keep_email]
          db_alice_bob))%Z /\
  username
    (set_profile (lit "b@x.com") (lit "q2") [] []
       (new_member db_alice (lit "bob") (lit "b@x.com") (lit "p2")
          (lit "0912") (lit "2000-01-01"))) = lit "bob".
Proof.
  destruct (ids_never_reused [Register alice; Register bob]
              [DeleteUser 1; Register alice; EditProfile 2 edit_keep_email])
    as (_ & Hseq & H).
  split; [exact Hseq|].
  apply (H (new_member db_alice (lit "bob") (lit "b@x.com") (lit "p2")
              (lit "0912") (lit "2000-01-01"))).
  - simpl. tauto.
  - simpl. tauto.
  - reflexivity.
Defined.

(** ** What the stored fields look like *)

Section Stripped.

Lemma lstrip_twice (s : str) : lstrip (lstrip s) = lstrip s.
Proof.
  induction s as [|c s IH]; simpl; [reflexivity|].
  destruct (isspace c) eqn:E; [exact IH|]. simpl. now rewrite E.
Qed.

Lemma lstrip_head (s : str) :
  lstrip s = [] \/ exists c r, lstrip s = c :: r /\ isspace c = false.
Proof.
  induction s as [|c s IH]; simpl; [now left|].
  destruct (isspace c) eqn:E; [exact IH|]. right. now exists c, s.
Qed.

Lemma lstrip_last (x : str) (c : N) :
  isspace c = false -> exists x', lstrip (x ++ [c]) = x' ++ [c].
Proof.
  intros Hc. induction x as [|a x IH]; simpl.
  - rewrite Hc. now exists [].
  - destruct (isspace a); [exact IH|]. now exists (a :: x).
Qed.

(** What [strip] returns, [strip] returns unchanged. *)
Lemma strip_stripped (s : str) : stripped (strip s).
Proof.
  unfold stripped, strip, rstrip.
  assert (Hl := lstrip_twice s). set (l := lstrip s) in *.
  set (t := lstrip (rev l)).
  assert (Ht : lstrip t = t) by apply lstrip_twice.
  assert (Hhead : lstrip (rev t) = rev t).
  { destruct (lstrip_head s) as [E|(c & r & E & Hc)]; fold l in E.
    - unfold t. rewrite E. reflexivity.
    - unfold t. rewrite E. simpl.
      destruct (@lstrip_last (rev r) c Hc) as [x' ->].
      rewrite rev_app_distr. simpl. now rewrite Hc. }
  rewrite Hhead, rev_involutive, Ht. reflexivity.
Qed.

Lemma register_success_nonempty req db :
  fst (register req db) = redirect url_login ->
  field req "username" <> [] /\ field req "email" <> [] /\
  field req "password" <> [].
Proof.
  intros Hok. destruct (@register_success _ _ Hok) as [Hpost _].
  revert Hok. rewrite register_post by assumption. cbv zeta.
  destruct (negb (truthy _) || negb (truthy _) || negb (truthy _)) eqn:G;
    [discriminate|].
  intros _. apply orb_false_iff in G. destruct G as [G Hp].
  apply passed_guard in G. apply negb_false_iff, truthy_true in Hp. tauto.
Qed.

Lemma written_tidy (i : Z) (u e p ph b : str) :
  u <> [] -> e <> [] -> p <> [] ->
  stripped u -> stripped e -> stripped p -> stripped ph -> stripped b ->
  tidy {| iid := i; username := u; email := e; password := p;
          phone := Some ph; birthdate := Some b |}.
Proof. intros. split; simpl; eauto. Qed.

Lemma handle_tidy c db :
  (forall m, In m (rows db) -> tidy m) ->
  forall m, In m (rows (snd (handle c db))) -> tidy m.
Proof.
  intros Hdb. destruct c as [|req|req|req|i|i req|i]; simpl;
    try assumption.
  - destruct (response_eq_dec (fst (register req db)) (redirect url_login))
      as [Hok|Hno]; [|now rewrite register_failure].
    destruct (@register_success_nonempty _ _ Hok) as (Hu & He & Hp).
    apply register_success in Hok. destruct Hok as [_ ->]. simpl.
    intros m Hin. apply in_app_iff in Hin.
    destruct Hin as [Hin|[<-|[]]]; [now apply Hdb|].
    apply written_tidy; try assumption; apply strip_stripped.
  - now rewrite login_keeps.
  - now rewrite welcome_keeps.
  - destruct (response_eq_dec (fst (edit_profile i req db))
                (redirect (url_welcome i)))
      as [Hok|Hno]; [|now rewrite edit_profile_failure].
    destruct (@edit_profile_success_free _ _ _ Hok) as (He & Hp & _).
    apply edit_profile_success in Hok. destruct Hok as (_ & _ & ->).
    simpl. intros m Hin. apply in_map_iff in Hin.
    destruct Hin as (m0 & <- & Hm0). specialize (Hdb m0 Hm0).
    unfold set_where. destruct (has_iid i m0); [|assumption].
    destruct Hdb as [[Hu Hsu] _ _ _ _].
    apply written_tidy; try assumption; apply strip_stripped.
  - destruct (int64 i) eqn:H64;
      [|now rewrite delete_user_overflow by assumption].
    rewrite delete_user_eq by assumption. simpl.
    intros m Hin. apply filter_In in Hin. apply Hdb. tauto.
Qed.

End Stripped.

(** X12.  Over any history from the empty table, every stored row has a
    username, an email and a password that are not empty and carry no blank
    at either end, and a phone and a birthdate that are strings without
    blanks at either end. *)
Theorem stored_rows_tidy (cs : list call) (m : member) :
  In m (rows (run cs Db.empty)) -> tidy m.
Proof.
  revert m. unfold run.
  assert (H : forall db, (forall m, In m (rows db) -> tidy m) ->
                forall m, In m (rows (fold_left
                  (fun db c => snd (handle c db)) cs db)) -> tidy m).
  { induction cs as [|c cs IH]; simpl; intros db Hdb; [assumption|].
    apply IH. now apply handle_tidy. }
  apply H. intros m [].
Qed.

Lemma stored_rows_tidy_witness :
  tidy (new_member db_alice (lit "bob") (lit "b@x.com") (lit "p2")
          (lit "0912") (lit "2000-01-01")).
Proof.
  apply (@stored_rows_tidy [Register alice; Register bob]).
  simpl. tauto.
Defined.

(** ** Usernames and emails that become free *)

Section Freed.

Lemma register_accepts req db :
  is_post req = true ->
  field req "username" <> [] -> field req "email" <> [] ->
  field req "password" <> [] ->
  ~ In (field req "username") (usernames db) ->
  ~ In (field req "email") (emails db) ->
  register req db =
    (redirect url_login,
     registered db (field req "username") (field req "email")
       (field req "password") (field req "phone") (field req "birthdate")).
Proof.
  intros Hpost Hu He Hp Hnu Hne. rewrite register_post by assumption.
  cbv zeta. rewrite nonempty_pass by assumption.
  now rewrite username_free, email_free by assumption.
Qed.

Lemma deleted_column_free {B} (col : member -> B) i db m :
  NoDup (map col (rows db)) -> In m (rows db) -> iid m = i ->
  ~ In (col m) (map col (rows (deleted db i))).
Proof.
  intros Hnd Hm Hid. rewrite in_map_iff. intros (r & Hcol & Hr).
  simpl in Hr. apply filter_In in Hr. destruct Hr as [Hr Hkeep].
  apply negb_true_iff, has_iid_false in Hkeep. apply Hkeep.
  rewrite <- Hid. f_equal. now apply (unique_column col (rows db)).
Qed.

End Freed.

(** X13.  A delete frees the username and the email of the deleted row: with
    usernames and emails unique, a POST to /register that brings both again
    (with a non-empty password) is accepted right after /delete/<id>, the id
    being a 64-bit integer as every stored id is. *)
Theorem delete_frees_username_and_email (i : Z) (req : request) (db : store)
        (m : member) :
  let db' := snd (delete_user i db) in
  NoDup (usernames db) -> NoDup (emails db) ->
  In m (rows db) -> iid m = i -> int64 i = true ->
  is_post req = true ->
  field req "username" = username m -> field req "email" = email m ->
  username m <> [] -> email m <> [] -> field req "password" <> [] ->
  register req db' =
    (redirect url_login,
     registered db' (username m) (email m) (field req "password")
       (field req "phone") (field req "birthdate")).
Proof.
  intros db' Hnu Hne Hm Hid H64 Hpost Hu He Hun Hen Hp.
  unfold db'. rewrite delete_user_eq by assumption. simpl.
  rewrite <- Hu, <- He.
  apply register_accepts; try assumption; try congruence.
  - rewrite Hu. now apply (deleted_column_free username).
  - rewrite He. now apply (deleted_column_free email).
Qed.

Lemma delete_frees_username_and_email_witness :
  fst (register alice (snd (delete_user 1 db_alice_bob))) =
    redirect url_login.
Proof.
  rewrite (@delete_frees_username_and_email 1 alice db_alice_bob
             (new_member Db.empty (lit "alice") (lit "a@x.com") (lit "p1")
                [] []));
    try reflexivity; try discriminate.
  - repeat constructor; simpl; intuition discriminate.
  - repeat constructor; simpl; intuition discriminate.
  - simpl. tauto.
Defined.

(** X14.  A successful edit to another email frees the old one: with ids and
    emails unique, after the row with id [i] moved away from its email, a
    POST to /register with that old email, a non-empty username no row holds
    and a non-empty password is accepted. *)
Theorem edit_frees_old_email (i : Z) (req req' : request) (db : store)
        (m : member) :
  let db' := snd (edit_profile i req db) in
  NoDup (iids db) -> NoDup (emails db) ->
  In m (rows db) -> iid m = i ->
  fst (edit_profile i req db) = redirect (url_welcome i) ->
  field req "email" <> email m ->
  is_post req' = true ->
  field req' "email" = email m -> email m <> [] ->
  field req' "username" <> [] -> field req' "password" <> [] ->
  ~ In (field req' "username") (usernames db) ->
  register req' db' =
    (redirect url_login,
     registered db' (field req' "username") (email m)
       (field req' "password") (field req' "phone")
       (field req' "birthdate")).
Proof.
  intros db' Hni Hne Hm Hid Hok Hmoved Hpost' He' Hen Hu' Hp' Hfree.
  destruct (@edit_profile_success _ _ _ Hok) as (_ & _ & Hdb).
  unfold db'. rewrite Hdb. rewrite <- He'.
  apply register_accepts; try assumption; try congruence.
  - now rewrite edited_usernames.
  - rewrite He'. unfold emails. simpl. rewrite map_map, in_map_iff.
    intros (r & Hem & Hr). rewrite upd_email in Hem.
    destruct (has_iid i r) eqn:E; [congruence|].
    apply has_iid_false in E. apply E. rewrite <- Hid. f_equal.
    now apply (unique_column email (rows db)).
Qed.

Lemma edit_frees_old_email_witness :
  fst (register carol
         (snd (edit_profile 2 edit_move_email db_alice_bob))) =
    redirect url_login.
Proof.
  rewrite (@edit_frees_old_email 2 edit_move_email carol db_alice_bob
             (new_member db_alice (lit "bob") (lit "b@x.com") (lit "p2")
                (lit "0912") (lit "2000-01-01")));
    try reflexivity; try discriminate.
  - repeat constructor; simpl; intuition discriminate.
  - repeat constructor; simpl; intuition discriminate.
  - simpl. tauto.
  - simpl. intuition discriminate.
Defined.

(** ** Which part of a form counts *)

(** X15.  The three form handlers read a POST only through the stripped first
    values of their named fields: two POSTs that agree on the stripped
    username, email, password, phone and birthdate get the same answer and
    leave the same database, whatever else they carry (blanks around the
    values, further fields, repeated keys, query arguments). *)
Theorem forms_count_by_stripped_fields (req req' : request) (db : store) :
  is_post req = true -> is_post req' = true ->
  (forall k, In k ["username"; "email"; "password"; "phone"; "birthdate"] ->
             field req k = field req' k) ->
  register req db = register req' db /\
  login req db = login req' db /\
  forall i, edit_profile i req db = edit_profile i req' db.
Proof.
  intros Hpost Hpost' Hsame.
  assert (Hu := Hsame "username"). assert (He := Hsame "email").
  assert (Hp := Hsame "password"). assert (Hph := Hsame "phone").
  assert (Hb := Hsame "birthdate"). simpl in Hu, He, Hp, Hph, Hb.
  split; [|split].
  - rewrite !register_post by assumption. cbv zeta.
    rewrite Hu, He, Hp, Hph, Hb by tauto. reflexivity.
  - rewrite !login_post by assumption. cbv zeta.
    rewrite He, Hp by tauto. reflexivity.
  - intros i. destruct (int64 i) eqn:H64;
      [|now rewrite !edit_profile_overflow by assumption].
    destruct (in_dec Z.eq_dec i (iids db)) as [Hi|Hi].
    + rewrite !edit_profile_post by assumption. cbv zeta.
      rewrite He, Hp, Hph, Hb by tauto. reflexivity.
    + now rewrite !edit_profile_no_user by assumption.
Qed.

Lemma forms_count_by_stripped_fields_witness :
  login login_alice_padded db_alice =
    login (post [("email", lit "a@x.com"); ("password", lit "p1")]) db_alice.
Proof.
  apply forms_count_by_stripped_fields; try reflexivity.
  intros k [<-|[<-|[<-|[<-|[<-|[]]]]]]; reflexivity.
Defined.

(** ** The display filter *)

(** X16.  [add_stars] puts one star before and one after the name, so the
    decorated name is two characters longer, and two names that are
    decorated alike are the same name. *)
Theorem add_stars_injective (a b : str) :
  List.length (add_stars a) = S (S (List.length a)) /\
  (add_stars a = add_stars b -> a = b).
Proof.
  unfold add_stars. split.
  - simpl. rewrite length_app. simpl. lia.
  - simpl. intros H. injection H as H. now apply app_inv_tail in H.
Qed.

Lemma add_stars_injective_witness :
  List.length (add_stars (lit "admin")) = 7 /\ lit "admin" = lit "admin".
Proof.
  destruct (add_stars_injective (lit "admin") (lit "admin")) as [Hl Hi].
  split; [exact Hl | exact (Hi eq_refl)].
Defined.
